(** * judge/signals.py: cache invalidation and denormalised-state hooks

    A shallow embedding of the signal receivers of [judge/signals.py].
    Every receiver is a synchronous reaction to a persistence event; it
    deletes cache keys, unlinks cached files, updates a few rows, or calls
    a collaborator that lives outside the file.

    The receivers are written in a state-and-exception monad over a
    [World] that holds the fragment cache, the file system, the tables the
    receivers query, and an ordered log of every call that leaves the
    file. *)

From stdpp Require Import gmap strings list fin_maps pretty.

Local Open Scope string_scope.
Local Open Scope list_scope.
Local Open Scope Z_scope.

(** ** Python values and string formatting *)

(** The values that are interpolated into cache keys: integers (primary
    keys) and strings (language codes, math engine names). *)
Inductive pyval :=
| PInt (n : Z)
| PStr (s : string).

#[global] Instance pyval_eq_dec : EqDecision pyval.
Proof. solve_decision. Defined.

(** [str(v)], which is also what ['%s' % v] prints. *)
Definition str (v : pyval) : string :=
  match v with
  | PInt n => pretty n
  | PStr s => s
  end.

(** ['%d' % n] for an integer [n]. *)
Definition fmt_d (n : Z) : string := pretty n.

(** Python truthiness of an optional string setting: [None] and the empty
    string are both false. *)
Definition truthy (o : option string) : bool :=
  match o with
  | None => false
  | Some s => negb (String.eqb s "")
  end.

(** ** Exceptions *)

Inductive exn :=
| OSError (errno : Z)
| DatabaseError (msg : string)
| OtherError (name : string).

#[global] Instance exn_eq_dec : EqDecision exn.
Proof. solve_decision. Defined.

(** [errno.ENOENT] *)
Definition ENOENT : Z := 2.

Inductive result (A : Type) :=
| Ok (a : A)
| Raise (e : exn).
Arguments Ok {A} a.
Arguments Raise {A} e.

(** ** Model instances

    The in-memory objects the receivers are handed.  Only the attributes
    that [signals.py] reads or writes are named; the remaining columns of
    a row are kept as a map from column name to value.  The attribute
    [_updating_stats_only] is not a column: [None] means that the object
    has no such attribute, so [hasattr] is [is_Some]. *)

Record Problem := {
  problem_id : Z;
  code : string;
  problem_updating_stats_only : option bool;
}.

Record Profile := {
  profile_id : Z;
  is_webauthn_enabled : bool;
  profile_columns : gmap string pyval;
  profile_updating_stats_only : option bool;
}.

Record Contest := {
  contest_id : Z;
  contest_updating_stats_only : option bool;
}.

Record ContestProblem := {
  contest : Contest;
}.

Record ContestParticipation := {
  participation_id : Z;
  participation_contest_id : Z;
}.

Record ContestSubmission := {
  submission_id : Z;
  participation : ContestParticipation;
}.

Record Submission := {
  sub_id : Z;
  user : Profile;
  problem : Problem;
}.

Record WebAuthnCredential := {
  credential_id : Z;
  credential_user : Profile;
}.

#[global] Instance Problem_eq_dec : EqDecision Problem.
Proof. solve_decision. Defined.
#[global] Instance Profile_eq_dec : EqDecision Profile.
Proof. solve_decision. Defined.
#[global] Instance Contest_eq_dec : EqDecision Contest.
Proof. solve_decision. Defined.
#[global] Instance ContestParticipation_eq_dec : EqDecision ContestParticipation.
Proof. solve_decision. Defined.
#[global] Instance Submission_eq_dec : EqDecision Submission.
Proof. solve_decision. Defined.

(** [hasattr(instance, '_updating_stats_only')] *)
Definition hasattr_updating_stats_only (flag : option bool) : bool :=
  match flag with
  | Some _ => true
  | None => false
  end.

(** [instance._updating_stats_only = True] *)
Definition Profile_set_updating_stats_only (p : Profile) : Profile :=
  {| profile_id := profile_id p;
     is_webauthn_enabled := is_webauthn_enabled p;
     profile_columns := profile_columns p;
     profile_updating_stats_only := Some true |}.

Definition Problem_set_updating_stats_only (p : Problem) : Problem :=
  {| problem_id := problem_id p;
     code := code p;
     problem_updating_stats_only := Some true |}.

(** [profile.is_webauthn_enabled = v] *)
Definition Profile_set_is_webauthn_enabled (v : bool) (p : Profile) : Profile :=
  {| profile_id := profile_id p;
     is_webauthn_enabled := v;
     profile_columns := profile_columns p;
     profile_updating_stats_only := profile_updating_stats_only p |}.

(** ** Tables *)

(** A row of the submission table.  [contest_object_id] is the foreign key
    to the contest; [sub_contest] is the associated [ContestSubmission]
    (its primary key), [None] when the submission has none. *)
Record SubmissionRow := {
  contest_object_id : option Z;
  sub_contest : option Z;
  submission_columns : gmap string pyval;
}.

Record ProfileRow := {
  col_is_webauthn_enabled : bool;
  col_profile_columns : gmap string pyval;
}.

#[global] Instance SubmissionRow_eq_dec : EqDecision SubmissionRow.
Proof. solve_decision. Defined.
#[global] Instance ProfileRow_eq_dec : EqDecision ProfileRow.
Proof. solve_decision. Defined.

(** [UPDATE ... SET contest_object_id = v] on one row. *)
Definition set_contest_object_id (v : option Z) (r : SubmissionRow) : SubmissionRow :=
  {| contest_object_id := v;
     sub_contest := sub_contest r;
     submission_columns := submission_columns r |}.

Definition set_col_is_webauthn_enabled (v : bool) (r : ProfileRow) : ProfileRow :=
  {| col_is_webauthn_enabled := v;
     col_profile_columns := col_profile_columns r |}.

(** ** Calls that leave the file

    Every call to the cache API, to [os.unlink] and to a collaborator
    defined elsewhere is appended to the log, with the receiver object as
    it is at the moment of the call.  What [finished_submission],
    [calculate_points], [update_stats] and [recompute_results] do in turn
    (recompute and save points, statistics and standings) is outside this
    file and is not applied to the world: the world records the steps of the
    receivers themselves. *)
Inductive call :=
| cache_delete_call (key : string)
| cache_delete_many_call (keys : list string)
| os_unlink_call (path : string)
| finished_submission_call (sub : Submission)
| calculate_points_call (p : Profile)
| update_stats_call (p : Problem)
| recompute_results_call (p : ContestParticipation).

#[global] Instance call_eq_dec : EqDecision call.
Proof. solve_decision. Defined.

(** Django settings read by the receivers. *)
Record Settings := {
  LANGUAGES : list (string * string);
  DMOJ_PDF_PROBLEM_CACHE : option string;
}.

(** Models of which the receivers read the primary key only: [License],
    [Language], [Judge], [Comment], [BlogPost], [Organization] and
    [MiscConfig]. *)
Record Instance := {
  id : Z;
}.

Definition Submission_set_user (u : Profile) (s : Submission) : Submission :=
  {| sub_id := sub_id s; user := u; problem := problem s |}.

Definition Submission_set_problem (p : Problem) (s : Submission) : Submission :=
  {| sub_id := sub_id s; user := user s; problem := p |}.

Definition WebAuthnCredential_set_user (u : Profile) (c : WebAuthnCredential)
  : WebAuthnCredential :=
  {| credential_id := credential_id c; credential_user := u |}.

(** ** The registrations

    One entry per [@receiver(signal, sender=Model)] decorator, in the order
    of the file. *)
Inductive signal := post_save | post_delete.

Inductive sender :=
| SProblem | SProfile | SWebAuthnCredential | SContest | SContestProblem
| SLicense | SLanguage | SJudge | SComment | SBlogPost | SSubmission
| SContestSubmission | SOrganization | SMiscConfig.

Inductive receiver :=
| r_problem_update | r_profile_update | r_webauthn_delete | r_contest_update
| r_contest_problem_delete | r_license_update | r_language_update
| r_judge_update | r_comment_update | r_post_update | r_submission_delete
| r_contest_submission_delete | r_organization_update | r_misc_config_update
| r_misc_config_delete | r_contest_submission_update.

#[global] Instance signal_eq_dec : EqDecision signal.
Proof. solve_decision. Defined.
#[global] Instance sender_eq_dec : EqDecision sender.
Proof. solve_decision. Defined.
#[global] Instance receiver_eq_dec : EqDecision receiver.
Proof. solve_decision. Defined.

Definition registrations : list (receiver * (signal * sender)) := [
  (r_problem_update, (post_save, SProblem));
  (r_profile_update, (post_save, SProfile));
  (r_webauthn_delete, (post_delete, SWebAuthnCredential));
  (r_contest_update, (post_save, SContest));
  (r_contest_problem_delete, (post_delete, SContestProblem));
  (r_license_update, (post_save, SLicense));
  (r_language_update, (post_save, SLanguage));
  (r_judge_update, (post_save, SJudge));
  (r_comment_update, (post_save, SComment));
  (r_post_update, (post_save, SBlogPost));
  (r_submission_delete, (post_delete, SSubmission));
  (r_contest_submission_delete, (post_delete, SContestSubmission));
  (r_organization_update, (post_save, SOrganization));
  (r_misc_config_update, (post_save, SMiscConfig));
  (r_misc_config_delete, (post_delete, SMiscConfig));
  (r_contest_submission_update, (post_save, SContestSubmission))
].

(** The receivers connected to a signal for a sender, in registration
    order. *)
Definition live_receivers (sig : signal) (snd : sender) : list receiver :=
  map fst (filter (fun r => r.2 = (sig, snd)) registrations).

(** The instance a signal is sent with, tagged by its model. *)
Inductive instance_of :=
| IProblem (p : Problem)
| IProfile (p : Profile)
| IWebAuthnCredential (c : WebAuthnCredential)
| IContest (c : Contest)
| IContestProblem (c : ContestProblem)
| ILicense (i : Instance)
| ILanguage (i : Instance)
| IJudge (i : Instance)
| IComment (i : Instance)
| IBlogPost (i : Instance)
| ISubmission (s : Submission)
| IContestSubmission (c : ContestSubmission)
| IOrganization (i : Instance)
| IMiscConfig (i : Instance).

Definition sender_of (i : instance_of) : sender :=
  match i with
  | IProblem _ => SProblem
  | IProfile _ => SProfile
  | IWebAuthnCredential _ => SWebAuthnCredential
  | IContest _ => SContest
  | IContestProblem _ => SContestProblem
  | ILicense _ => SLicense
  | ILanguage _ => SLanguage
  | IJudge _ => SJudge
  | IComment _ => SComment
  | IBlogPost _ => SBlogPost
  | ISubmission _ => SSubmission
  | IContestSubmission _ => SContestSubmission
  | IOrganization _ => SOrganization
  | IMiscConfig _ => SMiscConfig
  end.

(** ** The environment of the module

    [settings] is [django.conf.settings]; [EFFECTIVE_MATH_ENGINES] is the
    tuple imported from [judge.models]; [make_template_fragment_key] is
    Django's helper; [os_path_join] and [os_unlink] are [os.path.join] and
    [os.unlink] over a file system of type [FS]. *)
Class Env := {
  settings : Settings;
  EFFECTIVE_MATH_ENGINES : list string;
  make_template_fragment_key : string -> list pyval -> string;
  os_path_join : string -> string -> string;
  FS : Type;
  os_unlink : string -> FS -> exn + FS;
}.

Section Signals.

Context `{Env}.

(** ** The world *)
Record World := {
  cache : gmap string string;
  fs : FS;
  submissions : gmap Z SubmissionRow;
  profiles : gmap Z ProfileRow;
  (** credential primary key to the primary key of the owning profile *)
  webauthn_credentials : gmap Z Z;
  (** the many-to-many table: (profile, organization) *)
  profile_organizations : list (Z * Z);
  calls : list call;
}.

Definition set_cache (c : gmap string string) (w : World) : World :=
  {| cache := c; fs := fs w; submissions := submissions w;
     profiles := profiles w; webauthn_credentials := webauthn_credentials w;
     profile_organizations := profile_organizations w; calls := calls w |}.

Definition set_fs (f : FS) (w : World) : World :=
  {| cache := cache w; fs := f; submissions := submissions w;
     profiles := profiles w; webauthn_credentials := webauthn_credentials w;
     profile_organizations := profile_organizations w; calls := calls w |}.

Definition set_submissions (s : gmap Z SubmissionRow) (w : World) : World :=
  {| cache := cache w; fs := fs w; submissions := s;
     profiles := profiles w; webauthn_credentials := webauthn_credentials w;
     profile_organizations := profile_organizations w; calls := calls w |}.

Definition set_profiles (p : gmap Z ProfileRow) (w : World) : World :=
  {| cache := cache w; fs := fs w; submissions := submissions w;
     profiles := p; webauthn_credentials := webauthn_credentials w;
     profile_organizations := profile_organizations w; calls := calls w |}.

Definition set_calls (l : list call) (w : World) : World :=
  {| cache := cache w; fs := fs w; submissions := submissions w;
     profiles := profiles w; webauthn_credentials := webauthn_credentials w;
     profile_organizations := profile_organizations w; calls := l |}.

(** ** The monad

    A computation takes a world and gives back a value or an exception,
    together with the world as it is then: what was done before an
    exception stays done. *)
Definition M (A : Type) : Type := World -> result A * World.

Definition ret {A} (a : A) : M A := fun w => (Ok a, w).

Definition bind {A B} (m : M A) (k : A -> M B) : M B :=
  fun w =>
    match m w with
    | (Ok a, w') => k a w'
    | (Raise e, w') => (Raise e, w')
    end.

Definition raise {A} (e : exn) : M A := fun w => (Raise e, w).

(** [try: body except OSError as e: handler(e.errno)] *)
Definition try_except_OSError {A} (body : M A) (handler : Z -> M A) : M A :=
  fun w =>
    match body w with
    | (Raise (OSError errno), w') => handler errno w'
    | r => r
    end.

Definition get {A} (f : World -> A) : M A := fun w => (Ok (f w), w).

Definition modify (f : World -> World) : M unit := fun w => (Ok tt, f w).

Definition log (c : call) : M unit :=
  modify (fun w => set_calls (calls w ++ [c]) w).

Notation "x <- m ;; k" := (bind m (fun x => k))
  (at level 100, m at next level, right associativity).
Notation "m ;; k" := (bind m (fun _ => k))
  (at level 100, right associativity).

(** [for x in l: body(x)] *)
Fixpoint for_each {A} (l : list A) (body : A -> M unit) : M unit :=
  match l with
  | [] => ret tt
  | x :: l' => body x ;; for_each l' body
  end.

(** ** Primitives of the framework *)

(** [cache.delete(key)] *)
Definition cache_delete (key : string) : M unit :=
  log (cache_delete_call key) ;;
  modify (fun w => set_cache (delete key (cache w)) w).

(** [cache.delete_many(keys)] *)
Definition cache_delete_many (keys : list string) : M unit :=
  log (cache_delete_many_call keys) ;;
  modify (fun w => set_cache (foldr delete (cache w) keys) w).

(** [os.unlink(path)] *)
Definition unlink (path : string) : M unit :=
  log (os_unlink_call path) ;;
  fun w =>
    match os_unlink path (fs w) with
    | inr f => (Ok tt, set_fs f w)
    | inl e => (Raise e, w)
    end.

(** ** [get_pdf_path] and [unlink_if_exists] *)

Definition get_pdf_path (basename : string) : option string :=
  if negb (truthy (DMOJ_PDF_PROBLEM_CACHE settings)) then None
  else Some (os_path_join (default "" (DMOJ_PDF_PROBLEM_CACHE settings)) basename).

Definition unlink_if_exists (file : string) : M unit :=
  try_except_OSError (unlink file)
    (fun errno =>
       if negb (errno =? ENOENT) then raise (OSError errno) else ret tt).

(** ** Receivers guarded by [_updating_stats_only] *)

Definition problem_update (instance : Problem) : M unit :=
  if hasattr_updating_stats_only (problem_updating_stats_only instance) then ret tt
  else
    let id := problem_id instance in
    cache_delete_many [
      make_template_fragment_key "submission_problem" [PInt id];
      make_template_fragment_key "problem_feed" [PInt id];
      "problem_tls:" +:+ str (PInt id); "problem_mls:" +:+ str (PInt id)
    ] ;;
    cache_delete_many
      (flat_map (fun '(lang, _) =>
         map (fun engine =>
                make_template_fragment_key "problem_html" [PInt id; PStr engine; PStr lang])
             EFFECTIVE_MATH_ENGINES)
         (LANGUAGES settings)) ;;
    cache_delete_many
      (map (fun '(lang, _) =>
              make_template_fragment_key "problem_authors" [PInt id; PStr lang])
           (LANGUAGES settings)) ;;
    cache_delete_many
      (map (fun '(lang, _) => "generated-meta-problem:" +:+ str (PStr lang) +:+ ":" +:+ fmt_d id)
           (LANGUAGES settings)) ;;
    for_each (LANGUAGES settings) (fun '(lang, _) =>
      let cached_pdf_filename :=
        get_pdf_path (str (PStr (code instance)) +:+ "." +:+ str (PStr lang) +:+ ".pdf") in
      match cached_pdf_filename with
      | Some f => unlink_if_exists f
      | None => ret tt
      end).

(** [instance.organizations.values_list('id', flat=True)] *)
Definition organizations_values_list_id (p : Profile) : M (list Z) :=
  get (fun w =>
         map snd (filter (fun r => fst r = profile_id p) (profile_organizations w))).

Definition profile_update (instance : Profile) : M unit :=
  if hasattr_updating_stats_only (profile_updating_stats_only instance) then ret tt
  else
    org_ids <- organizations_values_list_id instance ;;
    cache_delete_many
      (map (fun engine =>
              make_template_fragment_key "user_about" [PInt (profile_id instance); PStr engine])
           EFFECTIVE_MATH_ENGINES ++
       map (fun org_id => make_template_fragment_key "org_member_count" [PInt org_id])
           org_ids).

Definition contest_update (instance : Contest) : M unit :=
  if hasattr_updating_stats_only (contest_updating_stats_only instance) then ret tt
  else
    cache_delete_many
      (["generated-meta-contest:" +:+ fmt_d (contest_id instance)] ++
       map (fun engine =>
              make_template_fragment_key "contest_html" [PInt (contest_id instance); PStr engine])
           EFFECTIVE_MATH_ENGINES).

(** ** Receivers on the tables *)

(** [profile.webauthn_credentials.count()]: the credentials whose owner is
    the profile. *)
Definition webauthn_credentials_count (p : Profile) : M nat :=
  get (fun w => size (filter (fun kv => kv.2 = profile_id p) (webauthn_credentials w))).

(** [profile.save(update_fields=['is_webauthn_enabled'])]: one UPDATE of the
    named column of the row with the profile's primary key, from the value
    the object holds; [DatabaseError] when no row is affected; then
    [post_save] is sent, whose only receiver for [Profile] is
    [profile_update]. *)
Definition Profile_save_is_webauthn_enabled (p : Profile) : M unit :=
  rows <- get profiles ;;
  match rows !! profile_id p with
  | None => raise (DatabaseError "Save with update_fields did not affect any rows.")
  | Some r =>
      modify (set_profiles
                (<[profile_id p := set_col_is_webauthn_enabled (is_webauthn_enabled p) r]> rows)) ;;
      profile_update p
  end.

Definition webauthn_delete (instance : WebAuthnCredential) : M WebAuthnCredential :=
  let profile := credential_user instance in
  n <- webauthn_credentials_count profile ;;
  if (n =? 0)%nat then
    let profile := Profile_set_is_webauthn_enabled false profile in
    Profile_save_is_webauthn_enabled profile ;;
    ret (WebAuthnCredential_set_user profile instance)
  else ret instance.

(** [Submission.objects.filter(...).update(contest_object_id=v)]: every row
    the filter selects gets the new value, no signal is sent. *)
Definition Submission_filter_update
    (selects : Z -> SubmissionRow -> bool) (v : option Z) : M unit :=
  modify (fun w =>
    set_submissions
      (map_imap (fun pk r => Some (if selects pk r then set_contest_object_id v r else r))
                (submissions w)) w).

Definition contest_problem_delete (instance : ContestProblem) : M unit :=
  Submission_filter_update
    (fun _ r =>
       bool_decide (contest_object_id r = Some (contest_id (contest instance)))
       && bool_decide (sub_contest r = None))
    None.

Definition contest_submission_delete (instance : ContestSubmission) : M unit :=
  let participation := participation instance in
  log (recompute_results_call participation) ;;
  Submission_filter_update (fun pk _ => bool_decide (pk = submission_id instance)) None.

Definition contest_submission_update (instance : ContestSubmission) : M unit :=
  Submission_filter_update
    (fun pk _ => bool_decide (pk = submission_id instance))
    (Some (participation_contest_id (participation instance))).

Definition submission_delete (instance : Submission) : M Submission :=
  log (finished_submission_call instance) ;;
  let instance := Submission_set_user (Profile_set_updating_stats_only (user instance)) instance in
  log (calculate_points_call (user instance)) ;;
  let instance :=
    Submission_set_problem (Problem_set_updating_stats_only (problem instance)) instance in
  log (update_stats_call (problem instance)) ;;
  ret instance.

(** ** Receivers that only delete cache keys *)

Definition license_update (instance : Instance) : M unit :=
  cache_delete (make_template_fragment_key "license_html" [PInt (id instance)]).

Definition language_update (instance : Instance) : M unit :=
  cache_delete_many [make_template_fragment_key "language_html" [PInt (id instance)];
                     "lang:cn_map"].

Definition judge_update (instance : Instance) : M unit :=
  cache_delete (make_template_fragment_key "judge_html" [PInt (id instance)]).

Definition comment_update (instance : Instance) : M unit :=
  cache_delete ("comment_feed:" +:+ fmt_d (id instance)).

Definition post_update (instance : Instance) : M unit :=
  cache_delete_many [
    make_template_fragment_key "post_summary" [PInt (id instance)];
    "blog_slug:" +:+ fmt_d (id instance);
    "blog_feed:" +:+ fmt_d (id instance)
  ] ;;
  cache_delete_many
    (map (fun engine =>
            make_template_fragment_key "post_content" [PInt (id instance); PStr engine])
         EFFECTIVE_MATH_ENGINES).

Definition organization_update (instance : Instance) : M unit :=
  cache_delete_many
    (map (fun engine =>
            make_template_fragment_key "organization_html" [PInt (id instance); PStr engine])
         EFFECTIVE_MATH_ENGINES).

Definition misc_config_update (instance : Instance) : M unit :=
  cache_delete "misc_config".

Definition misc_config_delete (instance : Instance) : M unit :=
  cache_delete "misc_config".

(** ** Dispatch *)

(** A receiver applied to the instance of its sender; the instance comes
    back as the receiver left it. *)
Definition call_receiver (r : receiver) (i : instance_of) : M instance_of :=
  match r, i with
  | r_problem_update, IProblem p => problem_update p ;; ret i
  | r_profile_update, IProfile p => profile_update p ;; ret i
  | r_webauthn_delete, IWebAuthnCredential c =>
      c' <- webauthn_delete c ;; ret (IWebAuthnCredential c')
  | r_contest_update, IContest c => contest_update c ;; ret i
  | r_contest_problem_delete, IContestProblem c => contest_problem_delete c ;; ret i
  | r_license_update, ILicense x => license_update x ;; ret i
  | r_language_update, ILanguage x => language_update x ;; ret i
  | r_judge_update, IJudge x => judge_update x ;; ret i
  | r_comment_update, IComment x => comment_update x ;; ret i
  | r_post_update, IBlogPost x => post_update x ;; ret i
  | r_submission_delete, ISubmission s =>
      s' <- submission_delete s ;; ret (ISubmission s')
  | r_contest_submission_delete, IContestSubmission c =>
      contest_submission_delete c ;; ret i
  | r_organization_update, IOrganization x => organization_update x ;; ret i
  | r_misc_config_update, IMiscConfig x => misc_config_update x ;; ret i
  | r_misc_config_delete, IMiscConfig x => misc_config_delete x ;; ret i
  | r_contest_submission_update, IContestSubmission c =>
      contest_submission_update c ;; ret i
  | _, _ => ret i
  end.

(** [signal.send(sender, instance=i)]: the connected receivers run in
    order; an exception stops the dispatch. *)
Fixpoint run_receivers (rs : list receiver) (i : instance_of) : M instance_of :=
  match rs with
  | [] => ret i
  | r :: rs' => i' <- call_receiver r i ;; run_receivers rs' i'
  end.

Definition send (sig : signal) (i : instance_of) : M instance_of :=
  run_receivers (live_receivers sig (sender_of i)) i.

End Signals.

(** ** Vocabulary of the properties *)

(** The calls of a log that are cache deletions, as the list of key
    batches they were given. *)
Definition deleted_batches (l : list call) : list (list string) :=
  omap (fun c =>
          match c with
          | cache_delete_call k => Some [k]
          | cache_delete_many_call ks => Some ks
          | _ => None
          end) l.

(** The senders a signal is registered for, in the order of the file. *)
Definition senders_of (sig : signal) : list sender :=
  map (fun r => r.2.2) (filter (fun r => r.2.1 = sig) registrations).

Section Wording.

Context `{Env}.

(** A receiver invalidates the batches [bs] between [w] and [w']: the log
    grows by exactly these cache deletions, every key of a batch is absent
    afterwards and every other key is as before. *)
Definition invalidates (w w' : World) (bs : list (list string)) : Prop :=
  deleted_batches (calls w') = deleted_batches (calls w) ++ bs ∧
  ∀ k, cache w' !! k = if decide (k ∈ concat bs) then None else cache w !! k.

(** The cache keys of a problem, as the specification lists them. *)
Definition listed_problem_key (p : Problem) (k : string) : Prop :=
  k = make_template_fragment_key "submission_problem" [PInt (problem_id p)] ∨
  k = make_template_fragment_key "problem_feed" [PInt (problem_id p)] ∨
  k = "problem_tls:" +:+ pretty (problem_id p) ∨
  k = "problem_mls:" +:+ pretty (problem_id p) ∨
  (∃ lang engine,
      lang ∈ (LANGUAGES settings).*1 ∧ engine ∈ EFFECTIVE_MATH_ENGINES ∧
      k = make_template_fragment_key "problem_html"
            [PInt (problem_id p); PStr engine; PStr lang]) ∨
  (∃ lang,
      lang ∈ (LANGUAGES settings).*1 ∧
      k = make_template_fragment_key "problem_authors" [PInt (problem_id p); PStr lang]) ∨
  (∃ lang,
      lang ∈ (LANGUAGES settings).*1 ∧
      k = "generated-meta-problem:" +:+ lang +:+ ":" +:+ pretty (problem_id p)).

(** The cached PDF files of a problem, as the specification lists them: one
    per language under the cache directory when the setting is set, none
    when it is not. *)
Definition pdf_paths (p : Problem) : list string :=
  match DMOJ_PDF_PROBLEM_CACHE settings with
  | Some dir =>
      if truthy (Some dir)
      then map (fun lang => os_path_join dir (code p +:+ "." +:+ lang +:+ ".pdf"))
               (LANGUAGES settings).*1
      else []
  | None => []
  end.

(** The file system after [os.unlink] was tried on a path: changed when the
    call succeeds, as it was when the call fails. *)
Definition try_unlink (f : FS) (path : string) : FS :=
  match os_unlink path f with
  | inr f' => f'
  | inl _ => f
  end.

(** What [unlink_if_exists] lets through of the outcome of [os.unlink]. *)
Definition unlink_outcome (path : string) (f : FS) : result unit :=
  match os_unlink path f with
  | inr _ => Ok tt
  | inl e => if decide (e = OSError ENOENT) then Ok tt else Raise e
  end.

(** A computation keeps a relation between the world it starts in and the
    world it leaves, whether it returns or raises. *)
Definition keeps (R : World → World → Prop) {A} (m : M A) : Prop :=
  ∀ w, R w (m w).2.

(** What may change in a submission row: the [contest_object] key only. *)
Definition submission_row_kept (r r' : SubmissionRow) : Prop :=
  sub_contest r' = sub_contest r ∧ submission_columns r' = submission_columns r.

(** What may change in a profile row: [is_webauthn_enabled] may be switched
    off, never on. *)
Definition profile_row_kept (r r' : ProfileRow) : Prop :=
  col_profile_columns r' = col_profile_columns r ∧
  (col_is_webauthn_enabled r' = true → col_is_webauthn_enabled r = true).

(** How far a world may move under the receivers: cache entries are only
    removed, the log only grows, rows are neither created nor deleted and
    change as above, the credential and membership tables stay. *)
Definition evolves (w w' : World) : Prop :=
  cache w' ⊆ cache w ∧
  calls w `prefix_of` calls w' ∧
  (∀ pk, option_Forall2 submission_row_kept (submissions w !! pk) (submissions w' !! pk)) ∧
  (∀ pk, option_Forall2 profile_row_kept (profiles w !! pk) (profiles w' !! pk)) ∧
  webauthn_credentials w' = webauthn_credentials w ∧
  profile_organizations w' = profile_organizations w.

(** The cache of [w'] is the cache of [w] without the keys [ks]. *)
Definition cache_minus (ks : list string) (w w' : World) : Prop :=
  ∀ k, cache w' !! k = if decide (k ∈ ks) then None else cache w !! k.

(** Two worlds in which a receiver reads the same: same memberships, same
    credentials, the same profiles present. *)
Definition same_reads (w wb : World) : Prop :=
  profile_organizations wb = profile_organizations w ∧
  webauthn_credentials wb = webauthn_credentials w ∧
  (∀ pk, profiles wb !! pk = None ↔ profiles w !! pk = None).

(** A computation leaves a component of the world as it found it. *)
Definition same_on {X} (f : World → X) (w w' : World) : Prop := f w' = f w.

(** Whatever the world, a computation removes the keys [ks] from the cache
    and nothing else from it. *)
Definition deletes (ks : list string) {A} (m : M A) : Prop :=
  ∀ w, cache_minus ks w (m w).2.


(** What a run of [os.unlink] over a list of paths, in order, comes to when
    it stops at the first path whose unlink raises anything but
    [OSError(ENOENT)]: the paths tried, the result, and the file system
    left. *)
Fixpoint unlink_in_order (paths : list string) (f : FS)
  : list string * result unit * FS :=
  match paths with
  | [] => ([], Ok tt, f)
  | path :: rest =>
      match unlink_outcome path f with
      | Ok _ =>
          let '(tried, r, f') := unlink_in_order rest (try_unlink f path) in
          (path :: tried, r, f')
      | Raise e => ([path], Raise e, f)
      end
  end.

(** The reading of "the cached PDF of every language is unlinked":
    [os.unlink] was called on each of the problem's PDF paths. *)
Definition every_pdf_unlinked (p : Problem) (w' : World) : Prop :=
  ∀ path, path ∈ pdf_paths p → os_unlink_call path ∈ calls w'.

End Wording.

(** ** A sample environment

    Two languages, two math engines, a fragment key that spells its
    arguments out instead of hashing them, and a file system that maps a
    path to whether it is a directory; unlinking a directory fails with
    [EISDIR]. *)
Definition EISDIR : Z := 21.

Definition sample_settings : Settings :=
  {| LANGUAGES := [("en", "English"); ("el", "Greek")];
     DMOJ_PDF_PROBLEM_CACHE := Some "/pdfcache" |}.

Definition sample_fragment_key (name : string) (vary_on : list pyval) : string :=
  "template.cache." +:+ name +:+ "." +:+
  foldr (fun v acc => str v +:+ ":" +:+ acc) "" vary_on.

Definition sample_path_join (a b : string) : string := a +:+ "/" +:+ b.

Definition sample_unlink (path : string) (f : gmap string bool)
  : exn + gmap string bool :=
  match f !! path with
  | None => inl (OSError ENOENT)
  | Some true => inl (OSError EISDIR)
  | Some false => inr (delete path f)
  end.

Definition sample_env : Env :=
  {| settings := sample_settings;
     EFFECTIVE_MATH_ENGINES := ["svg"; "jax"];
     make_template_fragment_key := sample_fragment_key;
     os_path_join := sample_path_join;
     FS := gmap string bool;
     os_unlink := sample_unlink |}.

Definition sample_profile (flag : option bool) : Profile :=
  {| profile_id := 7; is_webauthn_enabled := true;
     profile_columns := {[ "points" := PInt 120 ]};
     profile_updating_stats_only := flag |}.

Definition sample_problem (flag : option bool) : Problem :=
  {| problem_id := 3; code := "aplusb"; problem_updating_stats_only := flag |}.

Definition sample_contest (flag : option bool) : Contest :=
  {| contest_id := 5; contest_updating_stats_only := flag |}.

Definition sample_contest_submission : ContestSubmission :=
  {| submission_id := 11;
     participation := {| participation_id := 9; participation_contest_id := 6 |} |}.

Definition sample_world : @World sample_env :=
  {| cache := {[ "misc_config" := "cfg"; "problem_tls:3" := "2.0";
                 "template.cache.contest_html.5:svg:" := "<p>" ]};
     fs := {[ "/pdfcache/aplusb.en.pdf" := false; "/pdfcache/dir" := true ]};
     submissions :=
       {[ 10 := {| contest_object_id := Some 5; sub_contest := None;
                   submission_columns := {[ "points" := PInt 100 ]} |};
          11 := {| contest_object_id := Some 5; sub_contest := Some 40;
                   submission_columns := ∅ |};
          12 := {| contest_object_id := Some 6; sub_contest := None;
                   submission_columns := ∅ |} ]};
     profiles := {[ 7 := {| col_is_webauthn_enabled := true;
                            col_profile_columns := {[ "points" := PInt 120 ]} |};
                    8 := {| col_is_webauthn_enabled := true;
                            col_profile_columns := ∅ |} ]};
     webauthn_credentials := {[ 1 := 8 ]};
     profile_organizations := [(7, 2); (8, 2); (7, 4)];
     calls := [] |}.

(** The sample world with a directory where the English PDF of the sample
    problem would be cached. *)
Definition sample_world_pdf_directory : @World sample_env :=
  {| cache := cache sample_world;
     fs := {[ "/pdfcache/aplusb.en.pdf" := true; "/pdfcache/aplusb.el.pdf" := false ]};
     submissions := submissions sample_world;
     profiles := profiles sample_world;
     webauthn_credentials := webauthn_credentials sample_world;
     profile_organizations := profile_organizations sample_world;
     calls := [] |}.

(** * Properties *)

Section Properties.

Context `{Env}.

(** ** Shared lemmas *)

Lemma log_spec (c : call) (w : World) :
  log c w = (Ok tt, set_calls (calls w ++ [c]) w).
Proof. reflexivity. Qed.

Lemma cache_delete_spec (key : string) (w : World) :
  cache_delete key w =
    (Ok tt, set_cache (delete key (cache w)) (set_calls (calls w ++ [cache_delete_call key]) w)).
Proof. reflexivity. Qed.

Lemma cache_delete_many_spec (keys : list string) (w : World) :
  cache_delete_many keys w =
    (Ok tt, set_cache (foldr delete (cache w) keys)
              (set_calls (calls w ++ [cache_delete_many_call keys]) w)).
Proof. reflexivity. Qed.

(** A key survives a batch deletion exactly when it is not in the batch. *)
Lemma lookup_foldr_delete (keys : list string) (c : gmap string string) (k : string) :
  foldr delete c keys !! k = if decide (k ∈ keys) then None else c !! k.
Proof.
  induction keys as [|k' keys IH].
  - simpl. destruct (decide (k ∈ [])) as [Hin|]; [|done].
    by apply elem_of_nil in Hin.
  - cbn [foldr]. destruct (decide (k' = k)) as [->|Hne].
    + rewrite lookup_delete_eq.
      destruct (decide (k ∈ k :: keys)) as [|Hin]; [done|].
      exfalso. apply Hin. left.
    + rewrite lookup_delete_ne by done. rewrite IH.
      destruct (decide (k ∈ keys)) as [Hin|Hin].
      * rewrite decide_True; [reflexivity|]. by right.
      * rewrite decide_False; [reflexivity|].
        intros [Heq|Hin']%elem_of_cons; [congruence|contradiction].
Qed.

(** The only receiver of [post_save] for [Profile] is [profile_update], which
    is what saving a profile runs. *)
Lemma live_receivers_post_save_Profile :
  live_receivers post_save SProfile = [r_profile_update].
Proof. reflexivity. Qed.

Lemma send_post_save_Profile (p : Profile) (w : World) :
  send post_save (IProfile p) w =
    match profile_update p w with
    | (Ok _, w') => (Ok (IProfile p), w')
    | (Raise e, w') => (Raise e, w')
    end.
Proof.
  unfold send. cbn [sender_of]. rewrite live_receivers_post_save_Profile.
  cbn [run_receivers call_receiver]. unfold bind.
  destruct (profile_update p w) as [[[]|e] w']; reflexivity.
Qed.

(** Both receivers of [ContestSubmission] and of [MiscConfig] are reached
    through their own signal only. *)
Lemma live_receivers_shared_senders :
  live_receivers post_save SContestSubmission = [r_contest_submission_update] ∧
  live_receivers post_delete SContestSubmission = [r_contest_submission_delete] ∧
  live_receivers post_save SMiscConfig = [r_misc_config_update] ∧
  live_receivers post_delete SMiscConfig = [r_misc_config_delete].
Proof. repeat split. Qed.

(** ** Delegation on deletion of a submission *)

(** C1: on [post_delete] of a [Submission] the receiver calls
    [finished_submission] on the deleted instance, then [calculate_points] on
    the submitter's profile, then [update_stats] on the problem; each of the
    two objects carries [_updating_stats_only = True] when its recomputation
    is called and is otherwise as it was; the receiver itself leaves the
    cache, the files and every table as they were. *)
Theorem submission_delete_delegates (instance : Submission) (w : World) :
  ∃ (u : Profile) (p : Problem) (w' : World),
    submission_delete instance w =
      (Ok (Submission_set_problem p (Submission_set_user u instance)), w') ∧
    calls w' = calls w ++ [finished_submission_call instance;
                           calculate_points_call u;
                           update_stats_call p] ∧
    profile_updating_stats_only u = Some true ∧
    profile_id u = profile_id (user instance) ∧
    is_webauthn_enabled u = is_webauthn_enabled (user instance) ∧
    profile_columns u = profile_columns (user instance) ∧
    problem_updating_stats_only p = Some true ∧
    problem_id p = problem_id (problem instance) ∧
    code p = code (problem instance) ∧
    cache w' = cache w ∧ fs w' = fs w ∧
    submissions w' = submissions w ∧ profiles w' = profiles w ∧
    webauthn_credentials w' = webauthn_credentials w ∧
    profile_organizations w' = profile_organizations w.
Proof.
  exists (Profile_set_updating_stats_only (user instance)),
         (Problem_set_updating_stats_only (problem instance)).
  eexists. split.
  - unfold submission_delete, bind. rewrite !log_spec. simpl. reflexivity.
  - simpl. rewrite <- !app_assoc. simpl. repeat split; reflexivity.
Qed.

(** ** The registrations *)

(** C7: sixteen receivers are registered, which is more than ten; every
    receiver has exactly one registration, hence one signal and one sender;
    [post_save] is registered for Problem, Profile, Contest, License,
    Language, Judge, Comment, BlogPost, Organization, MiscConfig and
    ContestSubmission, and [post_delete] for WebAuthnCredential,
    ContestProblem, Submission, ContestSubmission and MiscConfig. *)
Theorem registrations_one_pair_each :
  (10 ≤ length registrations)%nat ∧
  (∀ r : receiver, length (filter (fun e => e.1 = r) registrations) = 1%nat) ∧
  senders_of post_save =
    [SProblem; SProfile; SContest; SLicense; SLanguage; SJudge; SComment;
     SBlogPost; SOrganization; SMiscConfig; SContestSubmission] ∧
  senders_of post_delete =
    [SWebAuthnCredential; SContestProblem; SSubmission; SContestSubmission;
     SMiscConfig].
Proof.
  split; [simpl; lia|]. split; [|split; reflexivity].
  intros r. destruct r; reflexivity.
Qed.

(** ** [unlink_if_exists] *)

(** C9: [unlink_if_exists] returns normally when [os.unlink] succeeds, with
    the file removed, and when it fails with [ENOENT], with the file system
    as it was; any other exception of [os.unlink] comes out unchanged. *)
Theorem unlink_if_exists_swallows_only_ENOENT (file : string) (w : World) :
  (∀ f, os_unlink file (fs w) = inr f →
        (unlink_if_exists file w).1 = Ok tt ∧ fs (unlink_if_exists file w).2 = f) ∧
  (os_unlink file (fs w) = inl (OSError ENOENT) →
        (unlink_if_exists file w).1 = Ok tt ∧ fs (unlink_if_exists file w).2 = fs w) ∧
  (∀ e, os_unlink file (fs w) = inl e → e ≠ OSError ENOENT →
        (unlink_if_exists file w).1 = Raise e ∧ fs (unlink_if_exists file w).2 = fs w).
Proof.
  unfold unlink_if_exists, try_except_OSError, unlink, bind.
  rewrite log_spec. simpl.
  split; [|split].
  - intros f Hf. rewrite Hf. done.
  - intros He. rewrite He. done.
  - intros e He Hne. rewrite He.
    destruct e as [errno|msg|name]; simpl; [|split; reflexivity..].
    destruct (errno =? ENOENT) eqn:Heq; simpl; [|split; reflexivity].
    apply Z.eqb_eq in Heq. congruence.
Qed.

(** ** [MiscConfig] *)

(** C10: the [post_save] and the [post_delete] receiver of [MiscConfig] do the
    same on every instance and world: one [cache.delete('misc_config')],
    which removes that key and nothing else. *)
Theorem misc_config_update_delete_equal (instance : Instance) (w : World) :
  misc_config_update instance w = misc_config_delete instance w ∧
  ∃ w', misc_config_update instance w = (Ok tt, w') ∧
    calls w' = calls w ++ [cache_delete_call "misc_config"] ∧
    cache w' = delete "misc_config" (cache w) ∧
    fs w' = fs w ∧ submissions w' = submissions w ∧ profiles w' = profiles w ∧
    webauthn_credentials w' = webauthn_credentials w ∧
    profile_organizations w' = profile_organizations w.
Proof.
  split; [reflexivity|].
  eexists. split; [apply cache_delete_spec|]. simpl. repeat split; reflexivity.
Qed.

(** ** Updates of the submission table *)

Lemma Submission_filter_update_spec (selects : Z → SubmissionRow → bool)
    (v : option Z) (w : World) :
  ∃ w', Submission_filter_update selects v w = (Ok tt, w') ∧
    (∀ pk, submissions w' !! pk =
           (fun r => if selects pk r then set_contest_object_id v r else r)
             <$> submissions w !! pk) ∧
    cache w' = cache w ∧ fs w' = fs w ∧ calls w' = calls w ∧
    profiles w' = profiles w ∧
    webauthn_credentials w' = webauthn_credentials w ∧
    profile_organizations w' = profile_organizations w.
Proof.
  eexists. split; [reflexivity|]. simpl. split; [|done].
  intros pk. rewrite map_lookup_imap. by destruct (submissions w !! pk).
Qed.

(** C3: on [post_delete] of a [ContestProblem], a submission row whose
    [contest_object] is the contest of the deleted problem and whose
    [contest] is null gets [contest_object] set to null and keeps its other
    columns; a row with a [ContestSubmission], or of another contest, stays
    as it is; no row appears or disappears and nothing else changes. *)
Theorem contest_problem_delete_nullifies (instance : ContestProblem) (w : World) :
  ∃ w', contest_problem_delete instance w = (Ok tt, w') ∧
    (∀ pk r, submissions w !! pk = Some r →
       contest_object_id r = Some (contest_id (contest instance)) →
       sub_contest r = None →
       submissions w' !! pk = Some (set_contest_object_id None r)) ∧
    (∀ pk r, submissions w !! pk = Some r →
       contest_object_id r ≠ Some (contest_id (contest instance)) ∨ sub_contest r ≠ None →
       submissions w' !! pk = Some r) ∧
    (∀ pk, submissions w !! pk = None → submissions w' !! pk = None) ∧
    cache w' = cache w ∧ fs w' = fs w ∧ calls w' = calls w ∧
    profiles w' = profiles w.
Proof.
  unfold contest_problem_delete.
  edestruct Submission_filter_update_spec
    as (w' & Hrun & Hrows & Hcache & Hfs & Hcalls & Hprof & _).
  exists w'. split; [exact Hrun|].
  repeat split; try done.
  - intros pk r Hr Hobj Hnull. rewrite Hrows, Hr. simpl.
    by rewrite !bool_decide_eq_true_2.
  - intros pk r Hr Hor. rewrite Hrows, Hr. simpl.
    destruct Hor as [Hne|Hne].
    + by rewrite (bool_decide_eq_false_2 _ Hne).
    + rewrite (bool_decide_eq_false_2 (sub_contest r = None) Hne).
      by rewrite andb_false_r.
  - intros pk Hr. by rewrite Hrows, Hr.
Qed.

(** C4: on [post_delete] of a [ContestSubmission] the receiver calls
    [recompute_results] on the participation of the deleted record, and the
    row of the submission table whose primary key is its [submission_id]
    gets [contest_object] set to null; every other row stays as it is. *)
Theorem contest_submission_delete_nullifies (instance : ContestSubmission) (w : World) :
  ∃ w', contest_submission_delete instance w = (Ok tt, w') ∧
    calls w' = calls w ++ [recompute_results_call (participation instance)] ∧
    (∀ r, submissions w !! submission_id instance = Some r →
       submissions w' !! submission_id instance = Some (set_contest_object_id None r)) ∧
    (∀ pk, pk ≠ submission_id instance → submissions w' !! pk = submissions w !! pk) ∧
    (∀ pk, submissions w !! pk = None → submissions w' !! pk = None) ∧
    cache w' = cache w ∧ fs w' = fs w ∧ profiles w' = profiles w.
Proof.
  unfold contest_submission_delete, bind. rewrite log_spec.
  edestruct Submission_filter_update_spec
    as (w' & Hrun & Hrows & Hcache & Hfs & Hcalls & Hprof & _).
  exists w'. split; [exact Hrun|].
  rewrite Hcalls, Hcache, Hfs, Hprof. simpl.
  repeat split.
  - intros r Hr. rewrite Hrows. simpl. rewrite Hr. simpl.
    by rewrite bool_decide_eq_true_2.
  - intros pk Hne. rewrite Hrows. simpl.
    destruct (submissions w !! pk) as [r|]; [|done]. simpl.
    by rewrite bool_decide_eq_false_2.
  - intros pk Hr. rewrite Hrows. simpl. by rewrite Hr.
Qed.

(** C6: on [post_save] of a [ContestSubmission], the row of the submission
    table whose primary key is its [submission_id] gets [contest_object_id]
    set to the [contest_id] of the record's participation; every other row
    stays as it is, no cache key is deleted and no call is logged. *)
Theorem contest_submission_update_denormalises (instance : ContestSubmission) (w : World) :
  ∃ w', contest_submission_update instance w = (Ok tt, w') ∧
    (∀ r, submissions w !! submission_id instance = Some r →
       submissions w' !! submission_id instance =
         Some (set_contest_object_id
                 (Some (participation_contest_id (participation instance))) r)) ∧
    (∀ pk, pk ≠ submission_id instance → submissions w' !! pk = submissions w !! pk) ∧
    (∀ pk, submissions w !! pk = None → submissions w' !! pk = None) ∧
    cache w' = cache w ∧ deleted_batches (calls w') = deleted_batches (calls w) ∧
    calls w' = calls w ∧ fs w' = fs w ∧ profiles w' = profiles w.
Proof.
  unfold contest_submission_update.
  edestruct Submission_filter_update_spec
    as (w' & Hrun & Hrows & Hcache & Hfs & Hcalls & Hprof & _).
  exists w'. split; [exact Hrun|].
  rewrite Hcalls, Hcache, Hfs, Hprof.
  repeat split.
  - intros r Hr. rewrite Hrows, Hr. simpl.
    by rewrite bool_decide_eq_true_2.
  - intros pk Hne. rewrite Hrows.
    destruct (submissions w !! pk) as [r|]; [|done]. simpl.
    by rewrite bool_decide_eq_false_2.
  - intros pk Hr. by rewrite Hrows, Hr.
Qed.

(** ** The loop over the cached PDF files *)

Lemma unlink_if_exists_run (file : string) (w : World) :
  unlink_if_exists file w =
    (unlink_outcome file (fs w),
     set_fs (try_unlink (fs w) file) (set_calls (calls w ++ [os_unlink_call file]) w)).
Proof.
  unfold unlink_if_exists, try_except_OSError, unlink, bind, unlink_outcome, try_unlink.
  rewrite log_spec. simpl.
  destruct (os_unlink file (fs w)) as [e|f]; [|reflexivity].
  destruct e as [errno|msg|name]; try reflexivity.
  destruct (errno =? ENOENT) eqn:Heq; simpl.
  - apply Z.eqb_eq in Heq. subst errno. by rewrite decide_True.
  - apply Z.eqb_neq in Heq. rewrite decide_False; [reflexivity|congruence].
Qed.

(** The loop of [problem_update] is a loop of [unlink_if_exists] over the
    paths [get_pdf_path] gives. *)
Lemma pdf_loop_omap (c : string) (langs : list (string * string)) (w : World) :
  for_each langs (fun '(lang, _) =>
    match get_pdf_path (str (PStr c) +:+ "." +:+ str (PStr lang) +:+ ".pdf") with
    | Some f => unlink_if_exists f
    | None => ret tt
    end) w =
  for_each
    (omap (fun l => get_pdf_path (c +:+ "." +:+ l.1 +:+ ".pdf")) langs)
    unlink_if_exists w.
Proof.
  revert w. induction langs as [|[lang name] langs IH]; intros w; [reflexivity|].
  cbn [for_each omap list_omap fst str].
  destruct (get_pdf_path (c +:+ "." +:+ lang +:+ ".pdf")) as [f|].
  - cbn [for_each]. unfold bind.
    destruct (unlink_if_exists f w) as [[[]|e] w1]; [apply IH|reflexivity].
  - unfold bind, ret. apply IH.
Qed.

Lemma pdf_paths_omap (p : Problem) :
  omap (fun l => get_pdf_path (code p +:+ "." +:+ l.1 +:+ ".pdf")) (LANGUAGES settings)
  = pdf_paths p.
Proof.
  unfold pdf_paths, get_pdf_path.
  destruct (DMOJ_PDF_PROBLEM_CACHE settings) as [dir|].
  - destruct (truthy (Some dir)); cbn [negb default].
    + induction (LANGUAGES settings) as [|l ls IH]; [reflexivity|].
      cbn [omap list_omap fmap list_fmap]. by rewrite IH.
    + induction (LANGUAGES settings) as [|l ls IH]; [reflexivity|]. exact IH.
  - cbn [truthy negb].
    induction (LANGUAGES settings) as [|l ls IH]; [reflexivity|]. exact IH.
Qed.

Lemma for_each_unlink_if_exists (paths : list string) (w : World) :
  ∃ r unlinks w',
    for_each paths unlink_if_exists w = (r, w') ∧
    calls w' = calls w ++ map os_unlink_call unlinks ∧
    unlinks `prefix_of` paths ∧
    (r = Ok tt → unlinks = paths) ∧
    ((∀ path f e, path ∈ paths → os_unlink path f = inl e → e = OSError ENOENT) →
     r = Ok tt) ∧
    fs w' = foldl try_unlink (fs w) unlinks ∧
    cache w' = cache w ∧ submissions w' = submissions w ∧ profiles w' = profiles w ∧
    webauthn_credentials w' = webauthn_credentials w ∧
    profile_organizations w' = profile_organizations w.
Proof.
  revert w. induction paths as [|path paths IH]; intros w.
  - exists (Ok tt), [], w. simpl. rewrite app_nil_r. by repeat split.
  - cbn [for_each]. unfold bind. rewrite unlink_if_exists_run.
    destruct (unlink_outcome path (fs w)) as [[]|e] eqn:Hout.
    + destruct (IH (set_fs (try_unlink (fs w) path)
                      (set_calls (calls w ++ [os_unlink_call path]) w)))
        as (r & unlinks & w' & Hrun & Hcalls & Hpre & Hall & Hok & Hfs & Hrest).
      exists r, (path :: unlinks), w'. split; [exact Hrun|].
      split; [rewrite Hcalls; simpl; by rewrite <- app_assoc|].
      split; [by apply prefix_cons|].
      split; [intros Hr; by rewrite (Hall Hr)|].
      split; [intros Hno; apply Hok; intros q f e Hq; apply Hno; by right|].
      split; [rewrite Hfs; reflexivity|exact Hrest].
    + exists (Raise e), [path]. eexists. split; [reflexivity|]. simpl.
      split; [reflexivity|].
      split; [apply prefix_cons, prefix_nil|].
      split; [discriminate|].
      split; [|by repeat split].
      intros Hno. exfalso. unfold unlink_outcome in Hout.
      destruct (os_unlink path (fs w)) as [e'|f] eqn:Hos; [|discriminate].
      rewrite (Hno path (fs w) e') in Hout; [|left|exact Hos].
      by rewrite decide_True in Hout.
Qed.

(** ** Invalidation of a problem *)

Lemma cache_delete_many_step (keys : list string) (w : World) :
  ∃ w1, cache_delete_many keys w = (Ok tt, w1) ∧
    calls w1 = calls w ++ [cache_delete_many_call keys] ∧
    (∀ k, cache w1 !! k = if decide (k ∈ keys) then None else cache w !! k) ∧
    fs w1 = fs w ∧ submissions w1 = submissions w ∧ profiles w1 = profiles w ∧
    webauthn_credentials w1 = webauthn_credentials w ∧
    profile_organizations w1 = profile_organizations w.
Proof.
  eexists. split; [apply cache_delete_many_spec|]. simpl.
  split; [reflexivity|]. split; [|done].
  intros k. apply lookup_foldr_delete.
Qed.

Lemma elem_of_lang_keys (g : string → string) (langs : list (string * string)) (k : string) :
  k ∈ map (fun '(lang, _) => g lang) langs ↔ ∃ lang, lang ∈ langs.*1 ∧ k = g lang.
Proof.
  induction langs as [|[lang name] langs IH]; simpl.
  - split; [by intros ?%elem_of_nil|]. by intros (? & ?%elem_of_nil & _).
  - rewrite elem_of_cons, IH. split.
    + intros [->|(l & Hl & ->)]; [exists lang; split; [left|done]|].
      exists l. split; [by right|done].
    + intros (l & [->|Hl]%elem_of_cons & ->); [by left|]. right. by exists l.
Qed.

Lemma elem_of_lang_engine_keys (g : string → string → string)
    (langs : list (string * string)) (engines : list string) (k : string) :
  k ∈ flat_map (fun '(lang, _) => map (fun engine => g lang engine) engines) langs ↔
  ∃ lang engine, lang ∈ langs.*1 ∧ engine ∈ engines ∧ k = g lang engine.
Proof.
  induction langs as [|[lang name] langs IH]; simpl.
  - split; [by intros ?%elem_of_nil|]. by intros (? & ? & ?%elem_of_nil & _).
  - rewrite elem_of_app, IH. split.
    + intros [Hk|(l & e & Hl & He & ->)].
      * apply list_elem_of_In, in_map_iff in Hk as (e & <- & He).
        exists lang, e. split; [left|]. split; [by apply list_elem_of_In|done].
      * exists l, e. split; [by right|done].
    + intros (l & e & [->|Hl]%elem_of_cons & He & ->).
      * left. apply list_elem_of_In, in_map_iff. exists e.
        split; [done|by apply list_elem_of_In].
      * right. by exists l, e.
Qed.

Ltac step_delete_many w b w' Hc Hk Hfr :=
  match goal with
  | |- context [cache_delete_many ?ks w] =>
      set (b := ks);
      let Hrun := fresh "Hrun" in
      destruct (cache_delete_many_step b w) as (w' & Hrun & Hc & Hk & Hfr);
      rewrite Hrun; clear Hrun
  end.

Lemma problem_update_cache_phase (p : Problem) (w : World) :
  problem_updating_stats_only p = None →
  ∃ bs w4,
    problem_update p w = for_each (pdf_paths p) unlink_if_exists w4 ∧
    calls w4 = calls w ++ map cache_delete_many_call bs ∧
    (∀ k, k ∈ concat bs ↔ listed_problem_key p k) ∧
    (∀ k, cache w4 !! k = if decide (k ∈ concat bs) then None else cache w !! k) ∧
    fs w4 = fs w ∧ submissions w4 = submissions w ∧ profiles w4 = profiles w ∧
    webauthn_credentials w4 = webauthn_credentials w ∧
    profile_organizations w4 = profile_organizations w.
Proof.
  intros Hflag. unfold problem_update. rewrite Hflag.
  cbn [hasattr_updating_stats_only]. cbv zeta. unfold bind.
  step_delete_many w b1 w1 Hc1 Hk1 Hfr1.
  step_delete_many w1 b2 w2 Hc2 Hk2 Hfr2.
  step_delete_many w2 b3 w3 Hc3 Hk3 Hfr3.
  step_delete_many w3 b4 w4 Hc4 Hk4 Hfr4.
  exists [b1; b2; b3; b4], w4.
  split; [rewrite <- pdf_paths_omap; apply pdf_loop_omap|].
  split; [rewrite Hc4, Hc3, Hc2, Hc1; simpl; by rewrite <- !app_assoc|].
  split; [|split].
  - intros k. cbn [concat]. rewrite app_nil_r, !elem_of_app. unfold listed_problem_key.
    subst b1 b2 b3 b4.
    rewrite (elem_of_lang_engine_keys
               (fun lang engine => make_template_fragment_key "problem_html"
                                     [PInt (problem_id p); PStr engine; PStr lang])).
    rewrite (elem_of_lang_keys
               (fun lang => make_template_fragment_key "problem_authors"
                              [PInt (problem_id p); PStr lang])).
    rewrite (elem_of_lang_keys
               (fun lang => "generated-meta-problem:" +:+ str (PStr lang) +:+ ":"
                              +:+ fmt_d (problem_id p))).
    rewrite !elem_of_cons, elem_of_nil. unfold fmt_d. cbn [str]. tauto.
  - intros k. rewrite Hk4, Hk3, Hk2, Hk1. cbn [concat]. rewrite app_nil_r.
    destruct (decide (k ∈ b1 ++ b2 ++ b3 ++ b4)) as [Hin|Hnin].
    + rewrite !elem_of_app in Hin.
      repeat (destruct (decide _) as [?|?]; [done|]). tauto.
    + rewrite !elem_of_app in Hnin.
      repeat (destruct (decide _) as [?|?]; [tauto|]). done.
  - destruct Hfr4 as (-> & -> & -> & -> & ->).
    destruct Hfr3 as (-> & -> & -> & -> & ->).
    destruct Hfr2 as (-> & -> & -> & -> & ->).
    exact Hfr1.
Qed.

Lemma deleted_batches_app (l1 l2 : list call) :
  deleted_batches (l1 ++ l2) = deleted_batches l1 ++ deleted_batches l2.
Proof. apply omap_app. Qed.

Lemma deleted_batches_delete_many (bs : list (list string)) :
  deleted_batches (map cache_delete_many_call bs) = bs.
Proof. induction bs as [|b bs IH]; [reflexivity|]. simpl. by rewrite IH. Qed.

Lemma deleted_batches_unlink (paths : list string) :
  deleted_batches (map os_unlink_call paths) = [].
Proof. induction paths as [|q paths IH]; [reflexivity|]. exact IH. Qed.

Lemma unlink_outcome_Raise (path : string) (f : FS) (e : exn) :
  unlink_outcome path f = Raise e → try_unlink f path = f.
Proof.
  unfold unlink_outcome, try_unlink.
  by destruct (os_unlink path f) as [e'|f'].
Qed.

Lemma for_each_unlink_in_order (paths : list string) (w : World) :
  ∃ r unlinks w',
    for_each paths unlink_if_exists w = (r, w') ∧
    (unlinks, r, fs w') = unlink_in_order paths (fs w) ∧
    calls w' = calls w ++ map os_unlink_call unlinks ∧
    cache w' = cache w ∧ submissions w' = submissions w ∧ profiles w' = profiles w.
Proof.
  revert w. induction paths as [|path paths IH]; intros w.
  - exists (Ok tt), [], w. simpl. by rewrite app_nil_r.
  - cbn [for_each unlink_in_order]. unfold bind. rewrite unlink_if_exists_run.
    destruct (unlink_outcome path (fs w)) as [[]|e] eqn:Hout.
    + destruct (IH (set_fs (try_unlink (fs w) path)
                      (set_calls (calls w ++ [os_unlink_call path]) w)))
        as (r & unlinks & w' & Hrun & Hord & Hcalls & Hrest).
      exists r, (path :: unlinks), w'. split; [exact Hrun|].
      cbn [fs set_fs set_calls] in Hord. rewrite <- Hord.
      split; [reflexivity|].
      split; [rewrite Hcalls; simpl; by rewrite <- app_assoc|exact Hrest].
    + exists (Raise e), [path]. eexists. split; [reflexivity|].
      cbn [fs set_fs set_calls calls cache submissions profiles].
      rewrite (unlink_outcome_Raise _ _ _ Hout). by repeat split.
Qed.

Lemma unlink_in_order_prefix (paths : list string) (f : FS) :
  (unlink_in_order paths f).1.1 `prefix_of` paths ∧
  (unlink_in_order paths f).2 = foldl try_unlink f (unlink_in_order paths f).1.1 ∧
  ((unlink_in_order paths f).1.2 = Ok tt → (unlink_in_order paths f).1.1 = paths).
Proof.
  revert f. induction paths as [|path paths IH]; intros f; [done|].
  cbn [unlink_in_order].
  destruct (unlink_outcome path f) as [[]|e] eqn:Hout.
  - specialize (IH (try_unlink f path)).
    destruct (unlink_in_order paths (try_unlink f path)) as [[tried r] f'].
    cbn [fst snd] in *. destruct IH as (Hpre & Hfs & Hall).
    split; [by apply prefix_cons|]. split; [exact Hfs|].
    intros Hr. by rewrite (Hall Hr).
  - cbn [fst snd foldl]. rewrite (unlink_outcome_Raise _ _ _ Hout).
    split; [apply prefix_cons, prefix_nil|]. split; [reflexivity|discriminate].
Qed.

(** The run goes through every path when each unlink, in the file system
    the earlier ones left, succeeds or fails with [ENOENT]. *)
Lemma unlink_in_order_Ok (paths : list string) (f : FS) :
  (∀ pre path post, paths = pre ++ path :: post →
     unlink_outcome path (foldl try_unlink f pre) = Ok tt) →
  unlink_in_order paths f = (paths, Ok tt, foldl try_unlink f paths).
Proof.
  revert f. induction paths as [|path paths IH]; intros f Hall; [reflexivity|].
  cbn [unlink_in_order foldl].
  pose proof (Hall [] path paths eq_refl) as Hfirst. cbn [foldl] in Hfirst.
  rewrite Hfirst. rewrite IH; [reflexivity|].
  intros pre q post ->. apply (Hall (path :: pre) q post). reflexivity.
Qed.

(** When the run raises, the last path tried is the first whose unlink
    raises, and the exception is the one it raised. *)
Lemma unlink_in_order_Raise (paths : list string) (f : FS) (e : exn) :
  (unlink_in_order paths f).1.2 = Raise e →
  ∃ pre path post,
    paths = pre ++ path :: post ∧
    (unlink_in_order paths f).1.1 = pre ++ [path] ∧
    unlink_outcome path (foldl try_unlink f pre) = Raise e ∧
    (∀ pre' q post', pre = pre' ++ q :: post' →
       unlink_outcome q (foldl try_unlink f pre') = Ok tt).
Proof.
  revert f. induction paths as [|path paths IH]; intros f; [discriminate|].
  cbn [unlink_in_order].
  destruct (unlink_outcome path f) as [[]|e0] eqn:Hout.
  - specialize (IH (try_unlink f path)).
    destruct (unlink_in_order paths (try_unlink f path)) as [[tried r] f'].
    cbn [fst snd] in *. intros Hr.
    destruct (IH Hr) as (pre & q & post & -> & -> & Hq & Hbefore).
    exists (path :: pre), q, post. split; [reflexivity|]. split; [reflexivity|].
    split; [exact Hq|].
    intros pre' q' post' Heq. destruct pre' as [|x pre'].
    + injection Heq as <- _. exact Hout.
    + injection Heq as <- ->. apply (Hbefore pre' q' post'). reflexivity.
  - cbn [fst snd]. intros [= ->].
    exists [], path, paths. split; [reflexivity|]. split; [reflexivity|].
    split; [exact Hout|]. intros [|x pre'] q post' Heq; discriminate Heq.
Qed.

(** C5, as amended: for a problem without [_updating_stats_only], the
    receiver first deletes cache keys in [delete_many] batches, and the keys
    of the batches are exactly the listed ones; they are absent from the
    cache afterwards and every other key is untouched.  It then calls
    [os.unlink] on the cached PDF of each language, in the order of
    [LANGUAGES], up to and including the first path whose unlink raises
    anything but [OSError(ENOENT)]; that exception is the result and the
    later paths are not tried.  When every unlink succeeds or fails with
    [ENOENT], every path is tried and the receiver returns.  With the
    setting unset no path is tried and the file system is as it was. *)
Theorem problem_update_invalidates (p : Problem) (w : World) :
  problem_updating_stats_only p = None →
  ∃ r w' batches unlinks,
    problem_update p w = (r, w') ∧
    calls w' = calls w ++ map cache_delete_many_call batches
                       ++ map os_unlink_call unlinks ∧
    (∀ k, k ∈ concat batches ↔ listed_problem_key p k) ∧
    (∀ k, cache w' !! k = if decide (k ∈ concat batches) then None else cache w !! k) ∧
    (unlinks, r, fs w') = unlink_in_order (pdf_paths p) (fs w) ∧
    unlinks `prefix_of` pdf_paths p ∧
    (r = Ok tt → unlinks = pdf_paths p) ∧
    ((∀ pre path post, pdf_paths p = pre ++ path :: post →
        unlink_outcome path (foldl try_unlink (fs w) pre) = Ok tt) →
     r = Ok tt ∧ unlinks = pdf_paths p) ∧
    (∀ e, r = Raise e →
       ∃ pre path post,
         pdf_paths p = pre ++ path :: post ∧ unlinks = pre ++ [path] ∧
         unlink_outcome path (foldl try_unlink (fs w) pre) = Raise e ∧
         (∀ pre' q post', pre = pre' ++ q :: post' →
            unlink_outcome q (foldl try_unlink (fs w) pre') = Ok tt)) ∧
    fs w' = foldl try_unlink (fs w) unlinks ∧
    (truthy (DMOJ_PDF_PROBLEM_CACHE settings) = false →
     r = Ok tt ∧ unlinks = [] ∧ fs w' = fs w) ∧
    submissions w' = submissions w ∧ profiles w' = profiles w.
Proof.
  intros Hflag.
  destruct (problem_update_cache_phase p w Hflag)
    as (bs & w4 & Hrun & Hc & Hkeys & Hcache & Hfs & Hsub & Hprof & _).
  destruct (for_each_unlink_in_order (pdf_paths p) w4)
    as (r & unlinks & w' & Hloop & Hord & Hcalls & Hcache' & Hsub' & Hprof').
  rewrite Hfs in Hord.
  pose proof (unlink_in_order_prefix (pdf_paths p) (fs w)) as (Hpre & Hfold & Hall).
  pose proof (unlink_in_order_Ok (pdf_paths p) (fs w)) as Hok.
  pose proof (unlink_in_order_Raise (pdf_paths p) (fs w)) as Hraise.
  rewrite <- Hord in Hpre, Hfold, Hall, Hraise. cbn [fst snd] in *.
  exists r, w', bs, unlinks.
  split; [by rewrite Hrun|].
  split; [by rewrite Hcalls, Hc, <- app_assoc|].
  split; [exact Hkeys|].
  split; [intros k; by rewrite Hcache'|].
  split; [exact Hord|].
  split; [exact Hpre|]. split; [exact Hall|].
  split.
  { intros Hfine. rewrite (Hok Hfine) in Hord. by injection Hord as -> -> _. }
  split; [exact Hraise|].
  split; [exact Hfold|].
  split; [|by rewrite Hsub', Hprof'].
  intros Hunset.
  assert (pdf_paths p = []) as Hnil.
  { unfold pdf_paths. destruct (DMOJ_PDF_PROBLEM_CACHE settings); [|done].
    by rewrite Hunset. }
  rewrite Hnil in Hord. cbn [unlink_in_order] in Hord.
  by injection Hord as -> -> ->.
Qed.

(** ** The guard *)

(** C2: a [Problem], [Profile] or [Contest] that carries
    [_updating_stats_only] makes its [post_save] receiver return at once, with
    the world (cache, files, log, tables) as it was; without the attribute
    the receiver deletes its batches of cache keys. *)
Theorem updating_stats_only_guard (pr : Problem) (pf : Profile) (ct : Contest) (w : World) :
  (is_Some (problem_updating_stats_only pr) → problem_update pr w = (Ok tt, w)) ∧
  (is_Some (profile_updating_stats_only pf) → profile_update pf w = (Ok tt, w)) ∧
  (is_Some (contest_updating_stats_only ct) → contest_update ct w = (Ok tt, w)) ∧
  (problem_updating_stats_only pr = None →
     ∃ bs, (∀ k, k ∈ concat bs ↔ listed_problem_key pr k) ∧
           invalidates w (problem_update pr w).2 bs) ∧
  (profile_updating_stats_only pf = None →
     (profile_update pf w).1 = Ok tt ∧
     invalidates w (profile_update pf w).2
       [map (fun engine =>
               make_template_fragment_key "user_about" [PInt (profile_id pf); PStr engine])
            EFFECTIVE_MATH_ENGINES ++
        map (fun org_id => make_template_fragment_key "org_member_count" [PInt org_id])
            (map snd (filter (fun r => r.1 = profile_id pf) (profile_organizations w)))]) ∧
  (contest_updating_stats_only ct = None →
     (contest_update ct w).1 = Ok tt ∧
     invalidates w (contest_update ct w).2
       [("generated-meta-contest:" +:+ pretty (contest_id ct)) ::
        map (fun engine =>
               make_template_fragment_key "contest_html" [PInt (contest_id ct); PStr engine])
            EFFECTIVE_MATH_ENGINES]).
Proof.
  split; [|split; [|split; [|split; [|split]]]].
  - intros [b Hb]. unfold problem_update. by rewrite Hb.
  - intros [b Hb]. unfold profile_update. by rewrite Hb.
  - intros [b Hb]. unfold contest_update. by rewrite Hb.
  - intros Hflag.
    destruct (problem_update_cache_phase pr w Hflag)
      as (bs & w4 & Hrun & Hc & Hkeys & Hcache & _).
    destruct (for_each_unlink_if_exists (pdf_paths pr) w4)
      as (r & unlinks & w' & Hloop & Hcalls & _ & _ & _ & _ & Hcache' & _).
    exists bs. split; [exact Hkeys|]. rewrite Hrun, Hloop. cbn [snd]. split.
    + rewrite Hcalls, Hc, !deleted_batches_app.
      by rewrite deleted_batches_delete_many, deleted_batches_unlink, app_nil_r.
    + intros k. by rewrite Hcache'.
  - intros Hflag. unfold profile_update. rewrite Hflag.
    cbn [hasattr_updating_stats_only]. unfold bind, organizations_values_list_id, get.
    rewrite cache_delete_many_spec. cbn [fst snd]. split; [reflexivity|]. split.
    + cbn [calls set_cache set_calls]. by rewrite deleted_batches_app.
    + intros k. cbn [concat cache set_cache set_calls]. rewrite app_nil_r.
      apply lookup_foldr_delete.
  - intros Hflag. unfold contest_update. rewrite Hflag.
    cbn [hasattr_updating_stats_only]. rewrite cache_delete_many_spec.
    cbn [fst snd]. split; [reflexivity|]. split.
    + cbn [calls set_cache set_calls]. by rewrite deleted_batches_app.
    + intros k. cbn [concat cache set_cache set_calls]. rewrite app_nil_r.
      apply lookup_foldr_delete.
Qed.

(** ** Deletion of a WebAuthn credential *)

Lemma profile_update_frame (p : Profile) (w : World) :
  ∃ w', profile_update p w = (Ok tt, w') ∧
    profiles w' = profiles w ∧ submissions w' = submissions w ∧
    webauthn_credentials w' = webauthn_credentials w ∧ fs w' = fs w.
Proof.
  unfold profile_update.
  destruct (hasattr_updating_stats_only (profile_updating_stats_only p)).
  - by exists w.
  - unfold bind, organizations_values_list_id, get.
    rewrite cache_delete_many_spec. eexists. split; [reflexivity|done].
Qed.

(** C8: on [post_delete] of a [WebAuthnCredential], when the owning profile
    has no credential left, the profile object gets [is_webauthn_enabled]
    false with its other attributes as they were, and the save writes that
    one column of the profile's row, every other column and every other row
    staying as it was; when a credential is left, the object and the world
    are not touched. *)
Theorem webauthn_delete_disables_when_none_left
    (instance : WebAuthnCredential) (w : World) :
  let profile := credential_user instance in
  let remaining :=
    size (filter (fun kv => kv.2 = profile_id profile) (webauthn_credentials w)) in
  ∃ r w', webauthn_delete instance w = (r, w') ∧
    (remaining = 0%nat →
       (∀ row, profiles w !! profile_id profile = Some row →
          ∃ profile' row',
            r = Ok (WebAuthnCredential_set_user profile' instance) ∧
            is_webauthn_enabled profile' = false ∧
            profile_id profile' = profile_id profile ∧
            profile_columns profile' = profile_columns profile ∧
            profile_updating_stats_only profile' = profile_updating_stats_only profile ∧
            profiles w' !! profile_id profile = Some row' ∧
            col_is_webauthn_enabled row' = false ∧
            col_profile_columns row' = col_profile_columns row) ∧
       (∀ pk, pk ≠ profile_id profile → profiles w' !! pk = profiles w !! pk) ∧
       (profiles w !! profile_id profile = None →
          profiles w' !! profile_id profile = None)) ∧
    (remaining ≠ 0%nat → r = Ok instance ∧ w' = w) ∧
    submissions w' = submissions w ∧
    webauthn_credentials w' = webauthn_credentials w ∧ fs w' = fs w.
Proof.
  intros profile remaining.
  unfold webauthn_delete, bind, webauthn_credentials_count, get.
  fold profile. fold remaining.
  destruct (remaining =? 0)%nat eqn:Hrem.
  - apply Nat.eqb_eq in Hrem.
    unfold Profile_save_is_webauthn_enabled, bind, get, modify, raise.
    cbn [profile_id Profile_set_is_webauthn_enabled is_webauthn_enabled].
    destruct (profiles w !! profile_id profile) as [row|] eqn:Hrow.
    + match goal with
      | |- context [profile_update ?q ?v] =>
          destruct (profile_update_frame q v) as (w' & Hrun & Hprof & Hsub & Hcred & Hfs);
          rewrite Hrun
      end.
      eexists _, w'. split; [reflexivity|].
      rewrite Hprof, Hsub, Hcred, Hfs. cbn [profiles set_profiles].
      split; [|split; [intros Hne; by destruct Hne|done]].
      intros _. split; [|split].
      * intros row0 [= <-].
        eexists _, _. split; [reflexivity|].
        rewrite lookup_insert_eq. by repeat split.
      * intros pk Hne. by rewrite lookup_insert_ne.
      * discriminate.
    + eexists _, w. split; [reflexivity|].
      split; [|split; [intros Hne; by destruct Hne|done]].
      intros _. split; [discriminate|]. split; [done|]. by intros _.
  - apply Nat.eqb_neq in Hrem.
    exists (Ok instance), w. split; [reflexivity|].
    split; [intros Hz; by destruct Hrem|]. by split.
Qed.

(** ** What every receiver keeps *)

#[local] Instance submission_row_kept_refl : Reflexive submission_row_kept.
Proof. by intros r. Qed.

#[local] Instance submission_row_kept_trans : Transitive submission_row_kept.
Proof. intros r1 r2 r3 [H1 H2] [H3 H4]. split; congruence. Qed.

#[local] Instance profile_row_kept_refl : Reflexive profile_row_kept.
Proof. by intros r. Qed.

#[local] Instance profile_row_kept_trans : Transitive profile_row_kept.
Proof. intros r1 r2 r3 [H1 H2] [H3 H4]. split; [congruence|auto]. Qed.

Lemma evolves_refl (w : World) : evolves w w.
Proof. repeat split; try done. Qed.

Lemma evolves_trans (w1 w2 w3 : World) : evolves w1 w2 → evolves w2 w3 → evolves w1 w3.
Proof.
  intros (Hc & Hl & Hs & Hp & Hw & Ho) (Hc' & Hl' & Hs' & Hp' & Hw' & Ho').
  split; [etrans; [exact Hc'|exact Hc]|].
  split; [etrans; [exact Hl|exact Hl']|].
  split; [intros pk; etrans; [apply Hs|apply Hs']|].
  split; [intros pk; etrans; [apply Hp|apply Hp']|].
  split; congruence.
Qed.

Section KeepsRules.

Variable R : World → World → Prop.
Hypothesis R_refl : ∀ w, R w w.
Hypothesis R_trans : ∀ w1 w2 w3, R w1 w2 → R w2 w3 → R w1 w3.

Lemma keeps_ret {A} (a : A) : keeps R (ret a).
Proof. intros w. apply R_refl. Qed.

Lemma keeps_raise {A} (e : exn) : keeps R (raise (A := A) e).
Proof. intros w. apply R_refl. Qed.

Lemma keeps_get {A} (f : World → A) : keeps R (get f).
Proof. intros w. apply R_refl. Qed.

Lemma keeps_modify (f : World → World) : (∀ w, R w (f w)) → keeps R (modify f).
Proof. intros Hf w. apply Hf. Qed.

Lemma keeps_bind {A B} (m : M A) (k : A → M B) :
  keeps R m → (∀ a, keeps R (k a)) → keeps R (bind m k).
Proof.
  intros Hm Hk w. unfold bind. specialize (Hm w).
  destruct (m w) as [[a|e] w1]; [|exact Hm].
  eapply R_trans; [exact Hm|apply Hk].
Qed.

Lemma keeps_try_except_OSError {A} (body : M A) (handler : Z → M A) :
  keeps R body → (∀ errno, keeps R (handler errno)) → keeps R (try_except_OSError body handler).
Proof.
  intros Hb Hh w. unfold try_except_OSError. specialize (Hb w).
  destruct (body w) as [[a|[errno|msg|name]] w1]; try exact Hb.
  eapply R_trans; [exact Hb|apply Hh].
Qed.

Lemma keeps_for_each {A} (l : list A) (body : A → M unit) :
  (∀ x, keeps R (body x)) → keeps R (for_each l body).
Proof.
  intros Hb. induction l as [|x l IH]; [apply keeps_ret|].
  apply keeps_bind; [apply Hb|intros _; exact IH].
Qed.

End KeepsRules.

Lemma foldr_delete_subseteq (keys : list string) (c : gmap string string) :
  foldr delete c keys ⊆ c.
Proof.
  induction keys as [|k keys IH]; [done|]. simpl.
  etrans; [apply delete_subseteq|exact IH].
Qed.

Lemma evolves_log (c : call) : keeps evolves (log c).
Proof.
  intros w. repeat split; try done. simpl. by apply prefix_app_r.
Qed.

Lemma evolves_cache_delete (key : string) : keeps evolves (cache_delete key).
Proof.
  intros w. rewrite cache_delete_spec. repeat split; try done; simpl.
  - apply delete_subseteq.
  - by apply prefix_app_r.
Qed.

Lemma evolves_cache_delete_many (keys : list string) :
  keeps evolves (cache_delete_many keys).
Proof.
  intros w. rewrite cache_delete_many_spec. repeat split; try done; simpl.
  - apply foldr_delete_subseteq.
  - by apply prefix_app_r.
Qed.

Lemma evolves_unlink_if_exists (file : string) : keeps evolves (unlink_if_exists file).
Proof.
  intros w. rewrite unlink_if_exists_run. repeat split; try done. simpl.
  by apply prefix_app_r.
Qed.

Lemma evolves_Submission_filter_update (selects : Z → SubmissionRow → bool) (v : option Z) :
  keeps evolves (Submission_filter_update selects v).
Proof.
  intros w.
  destruct (Submission_filter_update_spec selects v w)
    as (w' & -> & Hrows & Hcache & _ & Hcalls & Hprof & Hcred & Horg).
  cbn [snd]. repeat split; try done.
  - by rewrite Hcache.
  - by rewrite Hcalls.
  - intros pk. rewrite Hrows. destruct (submissions w !! pk) as [r|]; simpl; constructor.
    by destruct (selects pk r).
  - intros pk. by rewrite Hprof.
Qed.

Ltac keeps_evolves :=
  repeat first
    [ apply keeps_ret; exact evolves_refl
    | apply keeps_get; exact evolves_refl
    | apply keeps_raise; exact evolves_refl
    | apply evolves_log
    | apply evolves_cache_delete
    | apply evolves_cache_delete_many
    | apply evolves_unlink_if_exists
    | apply evolves_Submission_filter_update
    | apply keeps_bind; [exact evolves_trans| |intros ?]
    | apply keeps_for_each; [exact evolves_refl|exact evolves_trans|intros ?] ].

Lemma evolves_problem_update (p : Problem) : keeps evolves (problem_update p).
Proof.
  unfold problem_update.
  destruct (hasattr_updating_stats_only _); keeps_evolves.
  match goal with x : (string * string)%type |- _ => destruct x as [lang name] end.
  destruct (get_pdf_path _); keeps_evolves.
Qed.

Lemma evolves_profile_update (p : Profile) : keeps evolves (profile_update p).
Proof.
  unfold profile_update, organizations_values_list_id.
  destruct (hasattr_updating_stats_only _); keeps_evolves.
Qed.

Lemma evolves_contest_update (c : Contest) : keeps evolves (contest_update c).
Proof.
  unfold contest_update. destruct (hasattr_updating_stats_only _); keeps_evolves.
Qed.

Lemma evolves_Profile_save (p : Profile) :
  is_webauthn_enabled p = false → keeps evolves (Profile_save_is_webauthn_enabled p).
Proof.
  intros Hoff w. unfold Profile_save_is_webauthn_enabled, bind, get, modify, raise.
  destruct (profiles w !! profile_id p) as [row|] eqn:Hrow; [|apply evolves_refl].
  eapply evolves_trans; [|apply evolves_profile_update].
  repeat split; try done. intros pk. cbn [profiles set_profiles].
  destruct (decide (pk = profile_id p)) as [->|Hne].
  - rewrite lookup_insert_eq, Hrow. constructor. rewrite Hoff. by split.
  - by rewrite lookup_insert_ne.
Qed.

Lemma evolves_webauthn_delete (c : WebAuthnCredential) : keeps evolves (webauthn_delete c).
Proof.
  unfold webauthn_delete, webauthn_credentials_count.
  apply keeps_bind; [exact evolves_trans|keeps_evolves|intros n].
  destruct (n =? 0)%nat; [|keeps_evolves]. cbv zeta.
  apply keeps_bind; [exact evolves_trans|by apply evolves_Profile_save|].
  intros _. keeps_evolves.
Qed.

Lemma evolves_call_receiver (r : receiver) (i : instance_of) :
  keeps evolves (call_receiver r i).
Proof.
  destruct r, i; cbn [call_receiver];
    try (apply keeps_ret; exact evolves_refl);
    (apply keeps_bind; [exact evolves_trans| |intros ?; apply keeps_ret; exact evolves_refl]).
  - apply evolves_problem_update.
  - apply evolves_profile_update.
  - apply evolves_webauthn_delete.
  - apply evolves_contest_update.
  - unfold contest_problem_delete. keeps_evolves.
  - unfold license_update. keeps_evolves.
  - unfold language_update. keeps_evolves.
  - unfold judge_update. keeps_evolves.
  - unfold comment_update. keeps_evolves.
  - unfold post_update. keeps_evolves.
  - unfold submission_delete. keeps_evolves.
  - unfold contest_submission_delete. keeps_evolves.
  - unfold organization_update. keeps_evolves.
  - unfold misc_config_update. keeps_evolves.
  - unfold misc_config_delete. keeps_evolves.
  - unfold contest_submission_update. keeps_evolves.
Qed.

(** X1: no receiver ever adds a cache entry or changes the value of one:
    the cache after a receiver has run is a part of the cache before. *)
Theorem receivers_only_remove_cache_entries (r : receiver) (i : instance_of) (w : World) :
  cache (call_receiver r i w).2 ⊆ cache w.
Proof. apply (evolves_call_receiver r i w). Qed.

(** X2: no receiver creates or deletes a submission row, and a row keeps its
    [ContestSubmission] link and every column but [contest_object]. *)
Theorem receivers_keep_submission_rows (r : receiver) (i : instance_of) (w : World) (pk : Z) :
  option_Forall2 submission_row_kept
    (submissions w !! pk) (submissions (call_receiver r i w).2 !! pk).
Proof. apply (evolves_call_receiver r i w). Qed.

(** X3: no receiver other than the two that hand over to a collaborator,
    [submission_delete] and [contest_submission_delete], creates or deletes
    a profile row; a row keeps its other columns, and [is_webauthn_enabled]
    is never switched on. *)
Theorem receivers_keep_profile_rows (r : receiver) (i : instance_of) (w : World) (pk : Z) :
  r ≠ r_submission_delete → r ≠ r_contest_submission_delete →
  option_Forall2 profile_row_kept
    (profiles w !! pk) (profiles (call_receiver r i w).2 !! pk).
Proof. intros _ _. apply (evolves_call_receiver r i w). Qed.

(** ** Which receiver writes what *)

Lemma same_on_refl {X} (f : World → X) (w : World) : same_on f w w.
Proof. reflexivity. Qed.

Lemma same_on_trans {X} (f : World → X) (w1 w2 w3 : World) :
  same_on f w1 w2 → same_on f w2 w3 → same_on f w1 w3.
Proof. unfold same_on. congruence. Qed.

Lemma profile_update_same_on {X} (f : World → X) (p : Profile) :
  (∀ c w, f (set_cache c w) = f w) → (∀ l w, f (set_calls l w) = f w) →
  keeps (same_on f) (profile_update p).
Proof.
  intros Hc Hl w. unfold profile_update.
  destruct (hasattr_updating_stats_only _); [reflexivity|].
  unfold bind, organizations_values_list_id, get. rewrite cache_delete_many_spec.
  unfold same_on. cbn [snd]. by rewrite Hc, Hl.
Qed.

Lemma problem_update_same_on {X} (f : World → X) (p : Problem) :
  (∀ c w, f (set_cache c w) = f w) → (∀ l w, f (set_calls l w) = f w) →
  (∀ x w, f (set_fs x w) = f w) →
  keeps (same_on f) (problem_update p).
Proof.
  intros Hc Hl Hf. unfold problem_update.
  destruct (hasattr_updating_stats_only _); [intros w; reflexivity|]. cbv zeta.
  assert (∀ ks, keeps (same_on f) (cache_delete_many ks)) as Hdm.
  { intros ks w. rewrite cache_delete_many_spec. unfold same_on. cbn [snd].
    by rewrite Hc, Hl. }
  repeat (apply keeps_bind; [apply same_on_trans|apply Hdm|intros _]).
  apply keeps_for_each; [apply same_on_refl|apply same_on_trans|].
  intros [lang name]. destruct (get_pdf_path _); [|intros w; reflexivity].
  intros w. rewrite unlink_if_exists_run. unfold same_on. cbn [snd].
  by rewrite Hf, Hl.
Qed.

Lemma webauthn_delete_same_on {X} (f : World → X) (c : WebAuthnCredential) :
  (∀ x w, f (set_cache x w) = f w) → (∀ l w, f (set_calls l w) = f w) →
  (∀ x w, f (set_profiles x w) = f w) →
  keeps (same_on f) (webauthn_delete c).
Proof.
  intros Hc Hl Hp w. unfold webauthn_delete, bind, webauthn_credentials_count, get.
  destruct (_ =? 0)%nat; [|reflexivity].
  unfold Profile_save_is_webauthn_enabled, bind, get, modify, raise.
  destruct (profiles w !! _) as [row|]; [|reflexivity].
  match goal with
  | |- context [profile_update ?q ?v] =>
      pose proof (profile_update_same_on f q Hc Hl v) as Hq;
      destruct (profile_update q v) as [[[]|e] w1]
  end; unfold same_on in *; cbn in *; by rewrite Hq, Hp.
Qed.

(** X4: the credential table and the membership table are never written;
    the file system is written by [problem_update] only, the submission
    table by the three receivers of [ContestProblem] and [ContestSubmission]
    only; and of the receivers that do not hand over to a collaborator
    (all but [submission_delete] and [contest_submission_delete]) only
    [webauthn_delete] writes the profile table. *)
Theorem receivers_write_footprint (r : receiver) (i : instance_of) (w : World) :
  webauthn_credentials (call_receiver r i w).2 = webauthn_credentials w ∧
  profile_organizations (call_receiver r i w).2 = profile_organizations w ∧
  (r ≠ r_problem_update → fs (call_receiver r i w).2 = fs w) ∧
  (r ≠ r_contest_problem_delete → r ≠ r_contest_submission_delete →
   r ≠ r_contest_submission_update →
   submissions (call_receiver r i w).2 = submissions w) ∧
  (r ≠ r_webauthn_delete → r ≠ r_submission_delete →
   r ≠ r_contest_submission_delete →
   profiles (call_receiver r i w).2 = profiles w).
Proof.
  split; [apply (evolves_call_receiver r i w)|].
  split; [apply (evolves_call_receiver r i w)|].
  split; [|split].
  - intros Hr. revert w. change (keeps (same_on fs) (call_receiver r i)).
    destruct r, i; try done; cbn [call_receiver]; try (intros w; reflexivity);
      (apply keeps_bind; [apply same_on_trans| |intros ?; intros w; reflexivity]).
    + by apply profile_update_same_on.
    + by apply webauthn_delete_same_on.
    + unfold contest_update. destruct (hasattr_updating_stats_only _); intros w; reflexivity.
  - intros H1 H2 H3. revert w. change (keeps (same_on submissions) (call_receiver r i)).
    destruct r, i; try done; cbn [call_receiver]; try (intros w; reflexivity);
      (apply keeps_bind; [apply same_on_trans| |intros ?; intros w; reflexivity]).
    + by apply problem_update_same_on.
    + by apply profile_update_same_on.
    + by apply webauthn_delete_same_on.
    + unfold contest_update. destruct (hasattr_updating_stats_only _); intros w; reflexivity.
  - intros Hr Hs Hc. revert w. change (keeps (same_on profiles) (call_receiver r i)).
    destruct r, i; try done; cbn [call_receiver]; try (intros w; reflexivity);
      (apply keeps_bind; [apply same_on_trans| |intros ?; intros w; reflexivity]).
    + by apply problem_update_same_on.
    + by apply profile_update_same_on.
    + unfold contest_update. destruct (hasattr_updating_stats_only _); intros w; reflexivity.
Qed.

(** ** Which receiver can fail *)

Lemma for_each_unlink_if_exists_raises (paths : list string) (w w' : World) (e : exn) :
  for_each paths unlink_if_exists w = (Raise e, w') →
  e ≠ OSError ENOENT ∧ ∃ path f, path ∈ paths ∧ os_unlink path f = inl e.
Proof.
  revert w. induction paths as [|path paths IH]; intros w; [discriminate|].
  cbn [for_each]. unfold bind. rewrite unlink_if_exists_run.
  destruct (unlink_outcome path (fs w)) as [[]|e0] eqn:Hout.
  - intros Hrun. destruct (IH _ Hrun) as (Hne & q & f & Hq & Hf).
    split; [exact Hne|]. exists q, f. split; [by right|exact Hf].
  - intros [= -> _]. unfold unlink_outcome in Hout.
    destruct (os_unlink path (fs w)) as [e'|f] eqn:Hos; [|discriminate].
    destruct (decide (e' = OSError ENOENT)) as [|Hne]; [discriminate|].
    injection Hout as ->. split; [exact Hne|].
    exists path, (fs w). split; [left|exact Hos].
Qed.

(** X6: when [problem_update] raises, the exception is one that [os.unlink]
    raised on a cached PDF path and it is not [OSError(ENOENT)]; by then the
    listed cache keys are already gone. *)
Theorem problem_update_raises_after_invalidation
    (p : Problem) (w w' : World) (e : exn) :
  problem_update p w = (Raise e, w') →
  e ≠ OSError ENOENT ∧
  (∃ path f, path ∈ pdf_paths p ∧ os_unlink path f = inl e) ∧
  (∀ k, listed_problem_key p k → cache w' !! k = None).
Proof.
  intros Hrun.
  destruct (problem_updating_stats_only p) as [b|] eqn:Hflag.
  { unfold problem_update in Hrun. rewrite Hflag in Hrun. discriminate. }
  destruct (problem_update_cache_phase p w Hflag)
    as (bs & w4 & Hphase & _ & Hkeys & Hcache & _).
  rewrite Hphase in Hrun.
  destruct (for_each_unlink_if_exists_raises _ _ _ _ Hrun) as [Hne Hpath].
  split; [exact Hne|]. split; [exact Hpath|].
  intros k Hk.
  destruct (for_each_unlink_if_exists (pdf_paths p) w4)
    as (r & unlinks & w'' & Hloop & _ & _ & _ & _ & _ & Hcache' & _).
  rewrite Hrun in Hloop. injection Hloop as _ <-.
  rewrite Hcache', Hcache. rewrite decide_True; [reflexivity|by apply Hkeys].
Qed.

(** ** The guard in use *)

(** X7: the profile and the problem that [submission_delete] hands to
    [calculate_points] and [update_stats] make [profile_update] and
    [problem_update] return at once in any world, so a save from those
    recomputations invalidates nothing. *)
Theorem submission_delete_suppresses_invalidation (instance : Submission) (w : World) :
  ∃ instance' w',
    submission_delete instance w = (Ok instance', w') ∧
    In (calculate_points_call (user instance')) (calls w') ∧
    In (update_stats_call (problem instance')) (calls w') ∧
    ∀ w2, profile_update (user instance') w2 = (Ok tt, w2) ∧
          problem_update (problem instance') w2 = (Ok tt, w2).
Proof.
  eexists _, _. split.
  { unfold submission_delete, bind. rewrite !log_spec. simpl. reflexivity. }
  cbn [calls set_calls user problem Submission_set_user Submission_set_problem].
  rewrite <- !app_assoc.
  split; [apply in_or_app; right; simpl; tauto|].
  split; [apply in_or_app; right; simpl; tauto|].
  intros w2. split; reflexivity.
Qed.

(** ** The submission table under the three updates *)

Lemma submissions_filter_update (selects : Z → SubmissionRow → bool) (v : option Z)
    (w : World) (pk : Z) :
  submissions (Submission_filter_update selects v w).2 !! pk =
    (fun r => if selects pk r then set_contest_object_id v r else r)
      <$> submissions w !! pk.
Proof.
  destruct (Submission_filter_update_spec selects v w) as (w' & -> & Hrows & _).
  apply Hrows.
Qed.

(** X8: after [contest_problem_delete] no submission without a
    [ContestSubmission] points at the contest of the deleted problem. *)
Theorem contest_problem_delete_leaves_no_orphan
    (instance : ContestProblem) (w : World) (pk : Z) (r' : SubmissionRow) :
  submissions (contest_problem_delete instance w).2 !! pk = Some r' →
  contest_object_id r' = Some (contest_id (contest instance)) →
  sub_contest r' ≠ None.
Proof.
  unfold contest_problem_delete. rewrite submissions_filter_update.
  destruct (submissions w !! pk) as [r|]; [|discriminate]. simpl.
  destruct (bool_decide (contest_object_id r = _)) eqn:Hobj; simpl.
  - destruct (bool_decide (sub_contest r = None)) eqn:Hnull.
    + intros [= <-]. discriminate.
    + intros [= <-] _. by apply bool_decide_eq_false in Hnull.
  - intros [= <-] Hobj'. apply bool_decide_eq_false in Hobj. contradiction.
Qed.

(** X9: [contest_problem_delete] is idempotent: run on the world it left,
    it returns and leaves that world as it is. *)
Theorem contest_problem_delete_idempotent (instance : ContestProblem) (w : World) :
  contest_problem_delete instance (contest_problem_delete instance w).2 =
    (Ok tt, (contest_problem_delete instance w).2).
Proof.
  unfold contest_problem_delete, Submission_filter_update, modify. cbn [snd].
  f_equal. unfold set_submissions. cbn. f_equal.
  apply map_eq. intros pk. rewrite !map_lookup_imap.
  destruct (submissions w !! pk) as [r|]; [|reflexivity]. simpl. f_equal.
  destruct (bool_decide (contest_object_id r = _)) eqn:Hobj; simpl.
  - destruct (bool_decide (sub_contest r = None)) eqn:Hnull; simpl.
    + reflexivity.
    + by rewrite Hobj, Hnull.
  - by rewrite Hobj.
Qed.

(** X10: for one [ContestSubmission], the update of the submission table by
    the later of [contest_submission_update] and [contest_submission_delete]
    is the one that stays: delete after update leaves the table as delete
    alone, update after delete as update alone, and either twice as
    once. *)
Theorem contest_submission_last_write_wins (instance : ContestSubmission) (w : World) :
  submissions (contest_submission_delete instance
                 (contest_submission_update instance w).2).2
    = submissions (contest_submission_delete instance w).2 ∧
  submissions (contest_submission_update instance
                 (contest_submission_delete instance w).2).2
    = submissions (contest_submission_update instance w).2 ∧
  submissions (contest_submission_update instance
                 (contest_submission_update instance w).2).2
    = submissions (contest_submission_update instance w).2 ∧
  submissions (contest_submission_delete instance
                 (contest_submission_delete instance w).2).2
    = submissions (contest_submission_delete instance w).2.
Proof.
  unfold contest_submission_delete, contest_submission_update, bind.
  rewrite !log_spec. cbv zeta.
  repeat split; apply map_eq; intros pk; rewrite !submissions_filter_update;
    cbn [submissions set_calls]; rewrite ?submissions_filter_update;
    cbn [submissions set_calls];
    destruct (submissions w !! pk) as [r|]; try reflexivity; simpl;
    by destruct (bool_decide (pk = submission_id instance)).
Qed.

(** ** Dispatch *)

(** X11: a signal reaches at most one receiver of the module, and a signal
    for a sender it is not registered for reaches none: the world is left
    as it is. *)
Theorem send_reaches_at_most_one_receiver (sig : signal) (i : instance_of) (w : World) :
  (length (live_receivers sig (sender_of i)) ≤ 1)%nat ∧
  ((∀ r, (r, (sig, sender_of i)) ∉ registrations) → send sig i w = (Ok i, w)).
Proof.
  split; [destruct sig, i; vm_compute; lia|].
  intros Hnone. unfold send.
  destruct (live_receivers sig (sender_of i)) as [|r rs] eqn:Hlive; [reflexivity|].
  exfalso. apply (Hnone r).
  assert (In r (live_receivers sig (sender_of i))) as Hin by (rewrite Hlive; left; reflexivity).
  unfold live_receivers in Hin.
  apply in_map_iff in Hin as ([r0 pair] & Hr & Hin). simpl in Hr. subst r0.
  apply list_elem_of_In, list_elem_of_filter in Hin as [Hpair Hin].
  simpl in Hpair. by subst pair.
Qed.

(** ** Cache invalidation composes *)

Lemma cache_minus_nil (w w' : World) : cache w' = cache w → cache_minus [] w w'.
Proof. intros Heq k. rewrite Heq. rewrite decide_False; [done|]. apply not_elem_of_nil. Qed.

Lemma cache_minus_app (ks1 ks2 : list string) (w w1 w2 : World) :
  cache_minus ks1 w w1 → cache_minus ks2 w1 w2 → cache_minus (ks1 ++ ks2) w w2.
Proof.
  intros H1 H2 k. rewrite H2, H1.
  destruct (decide (k ∈ ks2)) as [Hin2|Hin2], (decide (k ∈ ks1)) as [Hin1|Hin1].
  - rewrite decide_True; [done|]. apply elem_of_app. by left.
  - rewrite decide_True; [done|]. apply elem_of_app. by right.
  - rewrite decide_True; [done|]. apply elem_of_app. by left.
  - rewrite decide_False; [done|]. intros [?|?]%elem_of_app; contradiction.
Qed.

Lemma deletes_nil {A} (m : M A) : (∀ w, cache (m w).2 = cache w) → deletes [] m.
Proof. intros Hm w. by apply cache_minus_nil. Qed.

Lemma deletes_cache_delete (key : string) : deletes [key] (cache_delete key).
Proof.
  intros w k. rewrite cache_delete_spec. cbn [snd cache set_cache set_calls].
  apply (lookup_foldr_delete [key]).
Qed.

Lemma deletes_cache_delete_many (keys : list string) : deletes keys (cache_delete_many keys).
Proof.
  intros w k. rewrite cache_delete_many_spec. cbn [snd cache set_cache set_calls].
  apply lookup_foldr_delete.
Qed.

(** After a computation that always returns, the continuation adds its
    keys. *)
Lemma deletes_bind {A B} (ks1 ks2 : list string) (m : M A) (k : A → M B) :
  (∀ w, ∃ a, (m w).1 = Ok a) → deletes ks1 m → (∀ a, deletes ks2 (k a)) →
  deletes (ks1 ++ ks2) (bind m k).
Proof.
  intros Hret Hm Hk w. unfold bind.
  destruct (Hret w) as [a Ha]. specialize (Hm w).
  destruct (m w) as [r w1]. simpl in Ha. subst r.
  eapply cache_minus_app; [exact Hm|apply Hk].
Qed.

(** A continuation that deletes nothing may be skipped by an exception. *)
Lemma deletes_bind_nil {A B} (ks : list string) (m : M A) (k : A → M B) :
  deletes ks m → (∀ a, deletes [] (k a)) → deletes ks (bind m k).
Proof.
  intros Hm Hk w. unfold bind. specialize (Hm w).
  destruct (m w) as [[a|e] w1]; [|exact Hm].
  rewrite <- (app_nil_r ks). eapply cache_minus_app; [exact Hm|apply Hk].
Qed.

Lemma deletes_for_each_unlink (paths : list string) :
  deletes [] (for_each paths unlink_if_exists).
Proof.
  apply deletes_nil. intros w.
  destruct (for_each_unlink_if_exists paths w)
    as (r & unlinks & w' & -> & _ & _ & _ & _ & _ & Hcache & _).
  exact Hcache.
Qed.

Lemma returns_cache_delete_many (keys : list string) (w : World) :
  ∃ a, (cache_delete_many keys w).1 = Ok a.
Proof. by exists tt. Qed.

Lemma deletes_problem_update (p : Problem) : ∃ ks, deletes ks (problem_update p).
Proof.
  unfold problem_update.
  destruct (hasattr_updating_stats_only _).
  - exists []. by apply deletes_nil.
  - cbv zeta. eexists.
    repeat (apply deletes_bind;
            [exact (returns_cache_delete_many _)|apply deletes_cache_delete_many|intros _]).
    intros w. rewrite pdf_loop_omap. apply deletes_for_each_unlink.
Qed.

Lemma deletes_contest_update (c : Contest) : ∃ ks, deletes ks (contest_update c).
Proof.
  unfold contest_update. destruct (hasattr_updating_stats_only _).
  - exists []. by apply deletes_nil.
  - eexists. apply deletes_cache_delete_many.
Qed.

Lemma deletes_post_update (x : Instance) : ∃ ks, deletes ks (post_update x).
Proof.
  unfold post_update. eexists.
  apply deletes_bind;
    [exact (returns_cache_delete_many _)|apply deletes_cache_delete_many|intros _].
  apply deletes_cache_delete_many.
Qed.

Lemma profile_update_cache_minus (p : Profile) (w : World) :
  ∃ ks, ∀ wb, profile_organizations wb = profile_organizations w →
    cache_minus ks wb (profile_update p wb).2.
Proof.
  unfold profile_update.
  destruct (hasattr_updating_stats_only _).
  - exists []. intros wb _. by apply cache_minus_nil.
  - eexists. intros wb Horgs k.
    unfold bind, organizations_values_list_id, get. rewrite cache_delete_many_spec.
    cbn [snd cache set_cache set_calls]. rewrite Horgs. apply lookup_foldr_delete.
Qed.

Lemma webauthn_delete_cache_minus (c : WebAuthnCredential) (w : World) :
  ∃ ks, ∀ wb, same_reads w wb → cache_minus ks wb (webauthn_delete c wb).2.
Proof.
  set (count := size (filter (fun kv => kv.2 = profile_id (credential_user c))
                        (webauthn_credentials w))).
  set (q := Profile_set_is_webauthn_enabled false (credential_user c)).
  destruct (profile_update_cache_minus q w) as [ks Hks].
  destruct (decide (count = 0%nat ∧ is_Some (profiles w !! profile_id q))) as [[Hz Hrow]|Hno].
  - exists ks. intros wb (Horgs & Hcred & Hrows).
    unfold webauthn_delete, bind, webauthn_credentials_count, get. rewrite Hcred.
    fold count. rewrite Hz. cbn [Nat.eqb]. cbv zeta. fold q.
    unfold Profile_save_is_webauthn_enabled, bind, get, modify.
    destruct (profiles wb !! profile_id q) as [row|] eqn:Hwb.
    + match goal with
      | |- context [profile_update q ?v] =>
          pose proof (Hks v Horgs) as Hv; destruct (profile_update q v) as [[[]|e] w1]
      end; exact Hv.
    + apply Hrows in Hwb. destruct Hrow as [row Hrow]. congruence.
  - exists []. intros wb (Horgs & Hcred & Hrows). apply cache_minus_nil.
    unfold webauthn_delete, bind, webauthn_credentials_count, get. rewrite Hcred.
    fold count. destruct (count =? 0)%nat eqn:Hz; [|reflexivity].
    apply Nat.eqb_eq in Hz. cbv zeta. fold q.
    unfold Profile_save_is_webauthn_enabled, bind, get, modify, raise.
    destruct (profiles wb !! profile_id q) as [row|] eqn:Hwb; [|reflexivity].
    exfalso. apply Hno. split; [exact Hz|].
    destruct (profiles w !! profile_id q) as [row'|] eqn:Hw; [by eexists|].
    apply Hrows in Hw. congruence.
Qed.

Lemma call_receiver_cache_minus (r : receiver) (i : instance_of) (w : World) :
  ∃ ks, ∀ wb, same_reads w wb → cache_minus ks wb (call_receiver r i wb).2.
Proof.
  assert (∀ (m : M unit), (∃ ks, deletes ks m) →
            ∃ ks, ∀ wb, same_reads w wb →
              cache_minus ks wb (bind m (fun _ => ret i) wb).2) as Hlift.
  { intros m [ks Hm]. exists ks. intros wb _.
    apply (deletes_bind_nil ks m (fun _ => ret i)); [exact Hm|].
    intros _. by apply deletes_nil. }
  destruct r, i; cbn [call_receiver];
    try (exists []; intros wb _; by apply cache_minus_nil);
    try (apply Hlift; eexists; first
           [ apply deletes_cache_delete | apply deletes_cache_delete_many ]).
  - apply Hlift, deletes_problem_update.
  - destruct (profile_update_cache_minus p w) as [ks Hks]. exists ks.
    intros wb (Horgs & _). specialize (Hks wb Horgs). unfold bind.
    by destruct (profile_update p wb) as [[[]|e] w1].
  - destruct (webauthn_delete_cache_minus c w) as [ks Hks]. exists ks.
    intros wb Hwb. specialize (Hks wb Hwb). unfold bind.
    by destruct (webauthn_delete c wb) as [[c'|e] w1].
  - apply Hlift, deletes_contest_update.
  - apply Hlift, deletes_post_update.
Qed.

Lemma evolves_same_reads (w w' : World) : evolves w w' → same_reads w w'.
Proof.
  intros (_ & _ & _ & Hp & Hcred & Horgs). split; [exact Horgs|]. split; [exact Hcred|].
  intros pk. specialize (Hp pk). split; intros Hnone; rewrite Hnone in Hp; by inversion Hp.
Qed.

Lemma same_reads_refl (w : World) : same_reads w w.
Proof. by repeat split. Qed.

(** X12: the cache invalidation of a receiver is idempotent: run a second
    time on the same instance, it leaves the cache as the first run left
    it. *)
Theorem receiver_invalidation_idempotent (r : receiver) (i : instance_of) (w : World) :
  cache (call_receiver r i (call_receiver r i w).2).2 = cache (call_receiver r i w).2.
Proof.
  destruct (call_receiver_cache_minus r i w) as [ks Hks].
  pose proof (Hks w (same_reads_refl w)) as H1.
  pose proof (Hks _ (evolves_same_reads _ _ (evolves_call_receiver r i w))) as H2.
  apply map_eq. intros k. rewrite H2, H1. by destruct (decide (k ∈ ks)).
Qed.

(** X13: the cache invalidations of two receivers commute: in either order
    they leave the same cache. *)
Theorem receiver_invalidations_commute
    (r1 r2 : receiver) (i1 i2 : instance_of) (w : World) :
  cache (call_receiver r2 i2 (call_receiver r1 i1 w).2).2 =
  cache (call_receiver r1 i1 (call_receiver r2 i2 w).2).2.
Proof.
  destruct (call_receiver_cache_minus r1 i1 w) as [ks1 Hks1].
  destruct (call_receiver_cache_minus r2 i2 w) as [ks2 Hks2].
  pose proof (Hks1 w (same_reads_refl w)) as H1.
  pose proof (Hks2 w (same_reads_refl w)) as H2.
  pose proof (Hks2 _ (evolves_same_reads _ _ (evolves_call_receiver r1 i1 w))) as H21.
  pose proof (Hks1 _ (evolves_same_reads _ _ (evolves_call_receiver r2 i2 w))) as H12.
  apply map_eq. intros k. rewrite H21, H12, H1, H2.
  by destruct (decide (k ∈ ks1)), (decide (k ∈ ks2)).
Qed.

(** ** [get_pdf_path] *)

(** X14: [get_pdf_path] gives no path exactly when the cache directory
    setting is [None] or the empty string, whatever the base name; with a
    directory set it gives the join of the directory and the base name. *)
Theorem get_pdf_path_unset_or_joined (basename : string) :
  (get_pdf_path basename = None ↔
     DMOJ_PDF_PROBLEM_CACHE settings = None ∨ DMOJ_PDF_PROBLEM_CACHE settings = Some "") ∧
  (∀ dir, DMOJ_PDF_PROBLEM_CACHE settings = Some dir → dir ≠ "" →
     get_pdf_path basename = Some (os_path_join dir basename)).
Proof.
  unfold get_pdf_path, truthy.
  destruct (DMOJ_PDF_PROBLEM_CACHE settings) as [dir|]; simpl.
  - destruct (String.eqb dir "") eqn:Hdir; simpl.
    + apply String.eqb_eq in Hdir. subst dir. split; [|by intros ? [= <-] ?].
      split; [by right|done].
    + apply String.eqb_neq in Hdir. split.
      * split; [discriminate|]. intros [?|[= ->]]; [discriminate|contradiction].
      * by intros ? [= <-] _.
  - split; [|discriminate]. split; [by left|done].
Qed.

End Properties.

(** * The receivers on the sample world *)

Example problem_update_sample_calls :
  calls (@problem_update sample_env (sample_problem None) sample_world).2 =
    [cache_delete_many_call
       ["template.cache.submission_problem.3:"; "template.cache.problem_feed.3:";
        "problem_tls:3"; "problem_mls:3"];
     cache_delete_many_call
       ["template.cache.problem_html.3:svg:en:"; "template.cache.problem_html.3:jax:en:";
        "template.cache.problem_html.3:svg:el:"; "template.cache.problem_html.3:jax:el:"];
     cache_delete_many_call
       ["template.cache.problem_authors.3:en:"; "template.cache.problem_authors.3:el:"];
     cache_delete_many_call
       ["generated-meta-problem:en:3"; "generated-meta-problem:el:3"];
     os_unlink_call "/pdfcache/aplusb.en.pdf";
     os_unlink_call "/pdfcache/aplusb.el.pdf"].
Proof. vm_compute. reflexivity. Qed.

Example problem_update_sample_files :
  fs (@problem_update sample_env (sample_problem None) sample_world).2 =
    {[ "/pdfcache/dir" := true ]}.
Proof. vm_compute. reflexivity. Qed.

Example unlink_if_exists_sample_directory :
  (@unlink_if_exists sample_env "/pdfcache/dir" sample_world).1 = Raise (OSError EISDIR).
Proof. vm_compute. reflexivity. Qed.

Example send_post_save_Profile_flagged :
  @send sample_env post_save (IProfile (sample_profile (Some true))) sample_world =
    (Ok (IProfile (sample_profile (Some true))), sample_world).
Proof. vm_compute. reflexivity. Qed.

Example send_post_delete_ContestProblem :
  contest_object_id <$>
    submissions (@send sample_env post_delete
                   (IContestProblem {| contest := sample_contest None |}) sample_world).2
  = {[ 10 := None; 11 := Some 5; 12 := Some 6 ]}.
Proof. vm_compute. reflexivity. Qed.

(** * The theorems at the sample world *)

Lemma updating_stats_only_guard_witness :
  @problem_update sample_env (sample_problem (Some true)) sample_world = (Ok tt, sample_world) ∧
  @profile_update sample_env (sample_profile (Some false)) sample_world = (Ok tt, sample_world) ∧
  @contest_update sample_env (sample_contest (Some true)) sample_world = (Ok tt, sample_world) ∧
  (@contest_update sample_env (sample_contest None) sample_world).1 = Ok tt.
Proof.
  pose proof (updating_stats_only_guard (H := sample_env)
                (sample_problem (Some true)) (sample_profile (Some false))
                (sample_contest (Some true)) sample_world) as (Hpr & Hpf & Hct & _).
  pose proof (updating_stats_only_guard (H := sample_env)
                (sample_problem None) (sample_profile None)
                (sample_contest None) sample_world) as (_ & _ & _ & _ & _ & Hct').
  split; [apply Hpr; by eexists|].
  split; [apply Hpf; by eexists|].
  split; [apply Hct; by eexists|].
  apply Hct'. reflexivity.
Defined.

Lemma contest_problem_delete_nullifies_witness :
  ∃ w', @contest_problem_delete sample_env {| contest := sample_contest None |} sample_world
          = (Ok tt, w') ∧
    contest_object_id <$> submissions w' !! 10 = Some None ∧
    contest_object_id <$> submissions w' !! 11 = Some (Some 5) ∧
    contest_object_id <$> submissions w' !! 12 = Some (Some 6) ∧
    submissions w' !! 13 = None.
Proof.
  destruct (contest_problem_delete_nullifies (H := sample_env)
              {| contest := sample_contest None |} sample_world)
    as (w' & Hrun & Hset & Hkeep & Hnone & _).
  exists w'. split; [exact Hrun|].
  split; [|split; [|split]].
  - erewrite Hset; cycle 1; [reflexivity..|reflexivity].
  - erewrite Hkeep; cycle 1; [reflexivity|right; discriminate|reflexivity].
  - erewrite Hkeep; cycle 1; [reflexivity|left; discriminate|reflexivity].
  - apply Hnone. reflexivity.
Defined.

Lemma contest_submission_delete_nullifies_witness :
  ∃ w', @contest_submission_delete sample_env sample_contest_submission sample_world
          = (Ok tt, w') ∧
    contest_object_id <$> submissions w' !! 11 = Some None ∧
    submissions w' !! 10 = submissions sample_world !! 10 ∧
    submissions w' !! 13 = None.
Proof.
  destruct (contest_submission_delete_nullifies (H := sample_env)
              sample_contest_submission sample_world)
    as (w' & Hrun & _ & Hset & Hkeep & Hnone & _).
  exists w'. split; [exact Hrun|].
  split; [|split].
  - specialize (Hset _ eq_refl).
    change (submission_id sample_contest_submission) with 11 in Hset.
    rewrite Hset. reflexivity.
  - apply Hkeep. discriminate.
  - apply Hnone. reflexivity.
Defined.

Lemma problem_update_invalidates_witness :
  problem_updating_stats_only (sample_problem None) = None ∧
  ∃ r w' unlinks,
    @problem_update sample_env (sample_problem None) sample_world = (r, w') ∧
    cache w' !! "problem_tls:3" = None ∧
    cache w' !! "misc_config" = cache sample_world !! "misc_config" ∧
    r = Ok tt ∧
    unlinks = ["/pdfcache/aplusb.en.pdf"; "/pdfcache/aplusb.el.pdf"] ∧
    fs w' = foldl (@try_unlink sample_env) (fs sample_world) unlinks.
Proof.
  split; [reflexivity|].
  destruct (problem_update_invalidates (H := sample_env)
              (sample_problem None) sample_world eq_refl)
    as (r & w' & bs & unlinks & Hrun & _ & Hkeys & Hcache & _ & _ & _ & Hfine & _
        & Hfs & _).
  exists r, w', unlinks. split; [exact Hrun|]. split; [|split].
  - rewrite Hcache. rewrite decide_True; [reflexivity|].
    apply Hkeys. right. right. left. reflexivity.
  - rewrite Hcache. rewrite decide_False; [reflexivity|].
    intros Hin%Hkeys. unfold listed_problem_key in Hin. simpl in Hin.
    destruct Hin as [Hk|[Hk|[Hk|[Hk|[(l & e & _ & _ & Hk)|[(l & _ & Hk)|(l & _ & Hk)]]]]]];
      discriminate Hk.
  - destruct Hfine as [Hr Hu].
    { intros pre path post Hsplit.
      change (@pdf_paths sample_env (sample_problem None))
        with ["/pdfcache/aplusb.en.pdf"; "/pdfcache/aplusb.el.pdf"] in Hsplit.
      destruct pre as [|x [|y [|z pre]]]; cbn [app] in Hsplit; simplify_eq;
        vm_compute; reflexivity. }
    split; [exact Hr|]. split; [exact Hu|exact Hfs].
Defined.

Lemma contest_submission_update_denormalises_witness :
  ∃ w', @contest_submission_update sample_env sample_contest_submission sample_world
          = (Ok tt, w') ∧
    contest_object_id <$> submissions w' !! 11 = Some (Some 6) ∧
    submissions w' !! 12 = submissions sample_world !! 12 ∧
    submissions w' !! 13 = None.
Proof.
  destruct (contest_submission_update_denormalises (H := sample_env)
              sample_contest_submission sample_world)
    as (w' & Hrun & Hset & Hkeep & Hnone & _).
  exists w'. split; [exact Hrun|].
  split; [|split].
  - specialize (Hset _ eq_refl).
    change (submission_id sample_contest_submission) with 11 in Hset.
    rewrite Hset. reflexivity.
  - apply Hkeep. discriminate.
  - apply Hnone. reflexivity.
Defined.

Lemma webauthn_delete_disables_when_none_left_witness :
  (∃ r w', @webauthn_delete sample_env
             {| credential_id := 2; credential_user := sample_profile None |} sample_world
           = (r, w') ∧
     col_is_webauthn_enabled <$> profiles w' !! 7 = Some false ∧
     profiles w' !! 8 = profiles sample_world !! 8) ∧
  @webauthn_delete sample_env
    {| credential_id := 3;
       credential_user := {| profile_id := 8; is_webauthn_enabled := true;
                             profile_columns := ∅;
                             profile_updating_stats_only := None |} |} sample_world
  = (Ok {| credential_id := 3;
           credential_user := {| profile_id := 8; is_webauthn_enabled := true;
                                 profile_columns := ∅;
                                 profile_updating_stats_only := None |} |}, sample_world).
Proof.
  split.
  - destruct (webauthn_delete_disables_when_none_left (H := sample_env)
                {| credential_id := 2; credential_user := sample_profile None |} sample_world)
      as (r & w' & Hrun & Hzero & _).
    destruct Hzero as (Hrow & Hother & _); [vm_compute; reflexivity|].
    exists r, w'. split; [exact Hrun|]. split.
    + destruct (Hrow {| col_is_webauthn_enabled := true;
                        col_profile_columns := {[ "points" := PInt 120 ]} |})
        as (p' & row' & _ & _ & _ & _ & _ & Hlook & Hoff & _);
        [vm_compute; reflexivity|].
      simpl in Hlook. rewrite Hlook. simpl. by rewrite Hoff.
    + apply Hother. discriminate.
  - destruct (webauthn_delete_disables_when_none_left (H := sample_env)
                {| credential_id := 3;
                   credential_user := {| profile_id := 8; is_webauthn_enabled := true;
                                         profile_columns := ∅;
                                         profile_updating_stats_only := None |} |}
                sample_world)
      as (r & w' & Hrun & _ & Hleft & _).
    destruct Hleft as [-> ->]; [vm_compute; discriminate|]. exact Hrun.
Defined.

Lemma unlink_if_exists_swallows_only_ENOENT_witness :
  (@unlink_if_exists sample_env "/pdfcache/aplusb.en.pdf" sample_world).1 = Ok tt ∧
  (@unlink_if_exists sample_env "/pdfcache/aplusb.el.pdf" sample_world).1 = Ok tt ∧
  (@unlink_if_exists sample_env "/pdfcache/dir" sample_world).1 = Raise (OSError EISDIR).
Proof.
  split; [|split].
  - eapply (proj1 (unlink_if_exists_swallows_only_ENOENT (H := sample_env)
                     "/pdfcache/aplusb.en.pdf" sample_world)).
    vm_compute. reflexivity.
  - apply (proj1 (proj2 (unlink_if_exists_swallows_only_ENOENT (H := sample_env)
                           "/pdfcache/aplusb.el.pdf" sample_world))).
    vm_compute. reflexivity.
  - apply (proj2 (proj2 (unlink_if_exists_swallows_only_ENOENT (H := sample_env)
                           "/pdfcache/dir" sample_world))).
    + vm_compute. reflexivity.
    + discriminate.
Defined.

Example problem_update_sample_directory :
  (@problem_update sample_env (sample_problem None) sample_world_pdf_directory).1
    = Raise (OSError EISDIR) ∧
  fs (@problem_update sample_env (sample_problem None) sample_world_pdf_directory).2
    = fs sample_world_pdf_directory ∧
  cache (@problem_update sample_env (sample_problem None) sample_world_pdf_directory).2
    = {[ "misc_config" := "cfg"; "template.cache.contest_html.5:svg:" := "<p>" ]}.
Proof. split; [|split]; vm_compute; reflexivity. Qed.

Lemma receivers_write_footprint_witness :
  fs (@call_receiver sample_env r_language_update (ILanguage {| id := 4 |}) sample_world).2
    = fs sample_world ∧
  submissions (@call_receiver sample_env r_problem_update
                 (IProblem (sample_problem None)) sample_world).2
    = submissions sample_world ∧
  profiles (@call_receiver sample_env r_contest_submission_update
              (IContestSubmission sample_contest_submission) sample_world).2
    = profiles sample_world.
Proof.
  split; [|split].
  - apply (receivers_write_footprint (H := sample_env)
             r_language_update (ILanguage {| id := 4 |}) sample_world).
    discriminate.
  - apply (receivers_write_footprint (H := sample_env)
             r_problem_update (IProblem (sample_problem None)) sample_world);
      discriminate.
  - apply (receivers_write_footprint (H := sample_env)
             r_contest_submission_update
             (IContestSubmission sample_contest_submission) sample_world);
      discriminate.
Defined.

Lemma problem_update_raises_after_invalidation_witness :
  OSError EISDIR ≠ OSError ENOENT ∧
  cache (@problem_update sample_env (sample_problem None) sample_world_pdf_directory).2
    !! "problem_tls:3" = None.
Proof.
  destruct (problem_update_raises_after_invalidation (H := sample_env)
              (sample_problem None) sample_world_pdf_directory
              (@problem_update sample_env (sample_problem None)
                 sample_world_pdf_directory).2
              (OSError EISDIR))
    as (Hne & _ & Hgone); [vm_compute; reflexivity|].
  split; [exact Hne|]. apply Hgone. right. right. left. reflexivity.
Defined.

Lemma contest_problem_delete_leaves_no_orphan_witness :
  sub_contest {| contest_object_id := Some 5; sub_contest := Some 40;
                 submission_columns := ∅ |} ≠ None.
Proof.
  apply (contest_problem_delete_leaves_no_orphan (H := sample_env)
           {| contest := sample_contest None |} sample_world 11);
    [vm_compute; reflexivity|reflexivity].
Defined.

Lemma send_reaches_at_most_one_receiver_witness :
  @send sample_env post_delete (IProblem (sample_problem None)) sample_world
    = (Ok (IProblem (sample_problem None)), sample_world).
Proof.
  apply (send_reaches_at_most_one_receiver (H := sample_env)).
  intros r Hin. apply list_elem_of_In in Hin. simpl in Hin.
  repeat (destruct Hin as [Hin|Hin]; [discriminate Hin|]). exact Hin.
Defined.

Lemma get_pdf_path_unset_or_joined_witness :
  @get_pdf_path sample_env "aplusb.en.pdf" = Some "/pdfcache/aplusb.en.pdf".
Proof.
  apply (proj2 (get_pdf_path_unset_or_joined (H := sample_env) "aplusb.en.pdf")
                "/pdfcache"); [reflexivity|discriminate].
Defined.

Lemma receivers_keep_profile_rows_witness :
  option_Forall2 (@profile_row_kept)
    (profiles sample_world !! 7)
    (profiles (@call_receiver sample_env r_webauthn_delete
                 (IWebAuthnCredential
                    {| credential_id := 2; credential_user := sample_profile None |})
                 sample_world).2 !! 7).
Proof.
  apply (receivers_keep_profile_rows (H := sample_env)); discriminate.
Defined.

(** The cached PDF of every language is not always unlinked: with a
    directory in the place of the English PDF, [os.unlink] raises [EISDIR],
    [problem_update] raises it in turn, and the Greek PDF is neither tried
    nor removed. *)
Lemma problem_update_not_every_pdf_unlinked :
  problem_updating_stats_only (sample_problem None) = None ∧
  truthy (DMOJ_PDF_PROBLEM_CACHE (@settings sample_env)) = true ∧
  (@problem_update sample_env (sample_problem None) sample_world_pdf_directory).1
    = Raise (OSError EISDIR) ∧
  fs (@problem_update sample_env (sample_problem None) sample_world_pdf_directory).2
    !! "/pdfcache/aplusb.el.pdf" = Some false ∧
  ¬ @every_pdf_unlinked sample_env (sample_problem None)
      (@problem_update sample_env (sample_problem None) sample_world_pdf_directory).2.
Proof.
  split; [reflexivity|]. split; [reflexivity|].
  split; [vm_compute; reflexivity|]. split; [vm_compute; reflexivity|].
  intros Hall.
  specialize (Hall "/pdfcache/aplusb.el.pdf").
  assert ("/pdfcache/aplusb.el.pdf" ∈ @pdf_paths sample_env (sample_problem None)) as Hin.
  { apply list_elem_of_In. vm_compute. tauto. }
  apply Hall, list_elem_of_In in Hin. vm_compute in Hin.
  repeat (destruct Hin as [Hin|Hin]; [discriminate Hin|]). exact Hin.
Qed.
